(** * Seer similarity grouping at ingest: the decision pipeline

    A shallow embedding of [src/sentry/grouping/ingest/seer.py]: the
    eligibility gate [should_call_seer_for_grouping] with its eight checks,
    the similarity client [get_seer_similar_issues] and the orchestrator
    [maybe_check_seer_for_matching_grouphash].

    Python code is embedded in a small state, exception and trace monad:
    the mutable objects the functions touch ([event.data], the candidate
    [GroupHash] objects, the rate limiter's counters) are carried in a
    store; a raised exception ends the computation and keeps the store as
    it was at the raise; everything that leaves the module (metrics, logs,
    limiter calls, the Seer request, ledger queries) is appended to a trace
    in the order in which it happens. *)

From Stdlib Require Import ZArith QArith.
From stdpp Require Import base gmap strings list pretty.
Local Close Scope Q_scope.

(** ** Python values *)

(** JSON-like values, as found in [event.data], in option values, in log
    extras and in metric tags.  A float is kept as the rational it
    denotes; no arithmetic on floats is ever modelled beyond the one
    division of the rate-limit check. *)
#[warnings="-register-all"] Inductive pyval :=
| PNone
| PBool (b : bool)
| PInt (z : Z)
| PFloat (q : Q)
| PStr (s : string)
| PList (l : list pyval)
| PDict (d : list (string * pyval)).

(** Exceptions are instances of [Exception], told apart by class name. *)
Inductive PyExc := Exc (cls : string).

Definition TypeError : PyExc := Exc "TypeError".
Definition KeyError : PyExc := Exc "KeyError".
Definition IndexError : PyExc := Exc "IndexError".
Definition ZeroDivisionError : PyExc := Exc "ZeroDivisionError".

Inductive Result (A : Type) :=
| Ok (a : A)
| Raise (e : PyExc).
Arguments Ok {A} a.
Arguments Raise {A} e.

Definition is_str (needle : string) (v : pyval) : bool :=
  match v with
  | PStr s => String.eqb s needle
  | _ => false
  end.

(** [bool(v)] *)
Definition py_truthy (v : pyval) : bool :=
  match v with
  | PNone => false
  | PBool b => b
  | PInt z => negb (z =? 0)%Z
  | PFloat q => negb (Qeq_bool q (0 # 1))
  | PStr s => negb (String.eqb s "")
  | PList l => negb (Nat.eqb (length l) 0)
  | PDict d => negb (Nat.eqb (length d) 0)
  end.

(** [needle in v] for a string [needle] *)
Definition py_contains (needle : string) (v : pyval) : Result bool :=
  match v with
  | PList l => Ok (existsb (is_str needle) l)
  | PStr s => Ok (match String.index 0 needle s with Some _ => true | None => false end)
  | PDict d => Ok (existsb (fun kv => String.eqb (fst kv) needle) d)
  | _ => Raise TypeError
  end.

(** [len(v)] *)
Definition py_len (v : pyval) : Result nat :=
  match v with
  | PList l => Ok (length l)
  | PStr s => Ok (String.length s)
  | PDict d => Ok (length d)
  | _ => Raise TypeError
  end.

(** [a / b] on integers: true division *)
Definition py_truediv (a b : Z) : Result Q :=
  if (b =? 0)%Z then Raise ZeroDivisionError
  else Ok (Qdiv (inject_Z a) (inject_Z b)).

(** [d[key]] on a dictionary literal built by this module *)
Definition py_getitem (d : gmap string pyval) (key : string) : Result pyval :=
  match d !! key with
  | Some v => Ok v
  | None => Raise KeyError
  end.

(** [v[i]] for a list index [i >= 0] *)
Definition py_index (v : pyval) (i : nat) : Result pyval :=
  match v with
  | PList l => match l !! i with Some x => Ok x | None => Raise IndexError end
  | _ => Raise TypeError
  end.

(** [v[key]] for a string key *)
Definition py_key (v : pyval) (key : string) : Result pyval :=
  match v with
  | PDict d =>
      match List.find (fun kv => String.eqb (fst kv) key) d with
      | Some kv => Ok (snd kv)
      | None => Raise KeyError
      end
  | _ => Raise TypeError
  end.

(** ** Data model *)

Record Project := {
  id : Z;
  project_options : gmap string pyval;
}.

(** [project.get_option(key)], [None] when the option is not set *)
Definition get_option (p : Project) (key : string) : pyval :=
  default PNone (project_options p !! key).

(** The parts of an event that the pipeline only reads.  The payload
    [event.data] is mutable and lives in the store. *)
Record Event := {
  event_id : string;
  project : Project;
  platform : option string;
  get_primary_hash : string;
}.

Record BaseVariant := { type : string }.

(** A ledger entry and its metadata block.  [seer_model] and
    [seer_match_distance] receive values read out of the response
    dictionary and are kept as Python values. *)
Inductive GroupHashMetadata := {
  date_added : Z;
  seer_date_sent : option Z;
  seer_event_sent : option string;
  seer_model : pyval;
  seer_matched_grouphash : option GroupHash;
  seer_match_distance : pyval }
with GroupHash := {
  hash : string;
  project_id : Z;
  metadata : option GroupHashMetadata }.

(** Modelled from the spec: the dataclass of one neighbour returned by the
    similarity service is declared outside the files at hand; the spec
    lists a parent hash, a stacktrace distance, a message distance and
    further scores. *)
Record SeerSimilarIssueData := {
  parent_hash : string;
  stacktrace_distance : Q;
  message_distance : Q;
  should_group : bool;
}.

(** [dataclasses.asdict] *)
Definition asdict (r : SeerSimilarIssueData) : pyval :=
  PDict [("parent_hash", PStr (parent_hash r));
         ("stacktrace_distance", PFloat (stacktrace_distance r));
         ("message_distance", PFloat (message_distance r));
         ("should_group", PBool (should_group r))].

Record SimilarIssuesEmbeddingsRequest := {
  req_event_id : string;
  req_hash : string;
  req_project_id : Z;
  req_stacktrace : pyval;
  req_exception_type : option string;
  req_k : Z;
  req_referrer : string;
  req_use_reranking : bool;
}.

Record RateLimitSpec := { limit : Z; window : Z }.

(** The keys of [sentry.options] that the module reads. *)
Record Options := {
  metrics_sample_rate : Q;
  global_rate_limit : RateLimitSpec;
  per_project_rate_limit : RateLimitSpec;
  circuit_breaker_config : list (string * pyval);
  use_reranking : bool;
}.

(** ** Trace *)

(** The eight checks of the gate. *)
Inductive Check :=
| ContentEligible
| ProjectBackfilled
| CustomizedFingerprint
| TooManyFrames
| Killswitch
| CircuitBreakerBroken
| EmptyStacktraceString
| Ratelimiting.

#[global] Instance Check_eq_dec : EqDecision Check.
Proof. solve_decision. Defined.

(** What leaves the module, in order.  [CheckEnter] and [CheckReturn]
    record that a check of the gate was called and what it returned. *)
Inductive Effect :=
| CheckEnter (c : Check)
| CheckReturn (c : Check) (value : bool)
| MetricsIncr (key : string) (sample_rate : Q) (tags : list (string * pyval))
| RecordDidCallSeer (call_made : bool) (blocker : string)
| LoggerWarning (msg : string) (extra : list (string * pyval))
| LoggerInfo (msg : string) (extra : list (string * pyval))
| IsLimited (key : string) (limit window : Z)
| GetStacktraceString
| SeerRequest (r : SimilarIssuesEmbeddingsRequest)
| GroupHashQuery (hash : string) (project_id : Z)
| CaptureException (e : PyExc) (tags : list (string * pyval))
| MetadataUpdate (hash : string).

(** ** Store and monad *)

(** [RL] is the state of the rate limiter backend. *)
Record Store (RL : Type) := mkStore {
  data : gmap string pyval;
  all_grouphashes : list GroupHash;
  ratelimiter : RL;
}.
Arguments mkStore {RL} _ _ _.
Arguments data {RL} _.
Arguments all_grouphashes {RL} _.
Arguments ratelimiter {RL} _.

Definition M (RL A : Type) : Type := Store RL -> Result A * Store RL * list Effect.

Definition ret {RL A} (a : A) : M RL A := fun w => (Ok a, w, []).

Definition raise {RL A} (e : PyExc) : M RL A := fun w => (Raise e, w, []).

Definition bind {RL A B} (m : M RL A) (k : A -> M RL B) : M RL B :=
  fun w =>
    match m w with
    | (Ok a, w1, t1) =>
        match k a w1 with
        | (r, w2, t2) => (r, w2, t1 ++ t2)
        end
    | (Raise e, w1, t1) => (Raise e, w1, t1)
    end.

Notation "'let*' x ':=' m 'in' k" := (bind m (fun x => k))
  (at level 10, x pattern, m at level 100, k at level 200).
Notation "m >> k" := (bind m (fun _ => k))
  (at level 65, right associativity).

(** [try: m except Exception as e: ...], reified: the handler decides. *)
Definition attempt {RL A} (m : M RL A) : M RL (Result A) :=
  fun w => match m w with (r, w1, t1) => (Ok r, w1, t1) end.

Definition lift {RL A} (r : Result A) : M RL A := fun w => (r, w, []).

Definition emit {RL} (e : Effect) : M RL unit := fun w => (Ok tt, w, [e]).

Definition get_data {RL} : M RL (gmap string pyval) := fun w => (Ok (data w), w, []).

Definition set_data {RL} (d : gmap string pyval) : M RL unit :=
  fun w => (Ok tt, mkStore d (all_grouphashes w) (ratelimiter w), []).

Definition get_grouphashes {RL} : M RL (list GroupHash) :=
  fun w => (Ok (all_grouphashes w), w, []).

Definition set_grouphashes {RL} (l : list GroupHash) : M RL unit :=
  fun w => (Ok tt, mkStore (data w) l (ratelimiter w), []).

(** Python's short-circuit [a or b] on booleans. *)
Definition orM {RL} (a b : M RL bool) : M RL bool :=
  let* x := a in if x then ret true else b.
Notation "a <||> b" := (orM a b) (at level 70, right associativity).

Definition result_of {RL A} (o : Result A * Store RL * list Effect) : Result A := o.1.1.
Definition store_of {RL A} (o : Result A * Store RL * list Effect) : Store RL := o.1.2.
Definition effects_of {RL A} (o : Result A * Store RL * list Effect) : list Effect := o.2.

(** ** External collaborators *)

(** The functions, constants and services that the module imports and
    whose code lies outside it.  Each is taken as given. *)
Record Deps (RL : Type) := {
  options : Options;
  SEER_SIMILARITY_MODEL_VERSION : string;
  SEER_INELIGIBLE_EVENT_PLATFORMS : gset string;
  SEER_SIMILARITY_CIRCUIT_BREAKER_KEY : string;
  (* event_content_has_stacktrace(event), which reads event.data *)
  event_content_has_stacktrace : Event -> gmap string pyval -> bool;
  (* has_too_many_contributing_frames(event, variants, referrer) *)
  has_too_many_contributing_frames :
    Event -> gmap string BaseVariant -> string -> bool;
  (* killswitch_enabled(project_id, referrer, event) *)
  killswitch_enabled : Z -> string -> Event -> bool;
  (* CircuitBreaker(key, config).should_allow_request() *)
  should_allow_request : string -> list (string * pyval) -> bool;
  (* get_stacktrace_string_with_metrics(get_grouping_info_from_variants(variants),
     platform, referrer): a string or None *)
  get_stacktrace_string_with_metrics :
    gmap string BaseVariant -> option string -> string -> option string;
  (* ratelimiter.backend.is_limited(key, limit=, window=): the answer and
     the backend's new state *)
  is_limited : string -> Z -> Z -> RL -> bool * RL;
  (* get_path(event.data, "exception", "values", -1, "type") *)
  get_path_exception_type : gmap string pyval -> option string;
  filter_null_from_string : string -> string;
  (* get_similarity_data_from_seer(request_data): the neighbours, best
     first, or an exception *)
  get_similarity_data_from_seer :
    SimilarIssuesEmbeddingsRequest -> Result (list SeerSimilarIssueData);
  (* the rows of the GroupHash table, in primary-key order *)
  GroupHash_objects : list GroupHash;
}.
Arguments options {RL} _.
Arguments SEER_SIMILARITY_MODEL_VERSION {RL} _.
Arguments SEER_INELIGIBLE_EVENT_PLATFORMS {RL} _.
Arguments SEER_SIMILARITY_CIRCUIT_BREAKER_KEY {RL} _.
Arguments event_content_has_stacktrace {RL} _ _ _.
Arguments has_too_many_contributing_frames {RL} _ _ _ _.
Arguments killswitch_enabled {RL} _ _ _ _.
Arguments should_allow_request {RL} _ _ _.
Arguments get_stacktrace_string_with_metrics {RL} _ _ _ _.
Arguments is_limited {RL} _ _ _ _ _.
Arguments get_path_exception_type {RL} _ _.
Arguments filter_null_from_string {RL} _ _.
Arguments get_similarity_data_from_seer {RL} _ _.
Arguments GroupHash_objects {RL} _.

(** [ReferrerOptions.INGEST] *)
Definition INGEST : string := "ingest".

Definition opt_str (o : option string) : pyval :=
  match o with
  | Some s => PStr s
  | None => PNone
  end.

(** ** The module *)

Section Pipeline.

Context {RL : Type} (E : Deps RL).

Definition metrics_incr (key : string) (tags : list (string * pyval)) : M RL unit :=
  emit (MetricsIncr key (metrics_sample_rate (options E)) tags).

Definition record_did_call_seer_metric (call_made : bool) (blocker : string) : M RL unit :=
  emit (RecordDidCallSeer call_made blocker).

Definition check_return (c : Check) (value : bool) : M RL bool :=
  emit (CheckReturn c value) >> ret value.

Definition _event_content_is_seer_eligible (event : Event) : M RL bool :=
  emit (CheckEnter ContentEligible) >>
  let* d := get_data in
  if negb (event_content_has_stacktrace E event d) then
    metrics_incr "grouping.similarity.event_content_seer_eligible"
      [("eligible", PBool false); ("blocker", PStr "no-stacktrace")] >>
    check_return ContentEligible false
  else if match platform event with
          | Some p => bool_decide (p ∈ SEER_INELIGIBLE_EVENT_PLATFORMS E)
          | None => false
          end then
    metrics_incr "grouping.similarity.event_content_seer_eligible"
      [("eligible", PBool false); ("blocker", PStr "unsupported-platform")] >>
    check_return ContentEligible false
  else
    metrics_incr "grouping.similarity.event_content_seer_eligible"
      [("eligible", PBool true); ("blocker", PStr "none")] >>
    check_return ContentEligible true.

Definition _has_too_many_contributing_frames
    (event : Event) (variants : gmap string BaseVariant) : M RL bool :=
  emit (CheckEnter TooManyFrames) >>
  if has_too_many_contributing_frames E event variants INGEST then
    record_did_call_seer_metric false "excess-frames" >>
    check_return TooManyFrames true
  else
    check_return TooManyFrames false.

Definition _project_has_similarity_grouping_enabled (project : Project) : M RL bool :=
  emit (CheckEnter ProjectBackfilled) >>
  let has_been_backfilled :=
    py_truthy (get_option project "sentry:similarity_backfill_completed") in
  metrics_incr "grouping.similarity.event_project_backfill_status"
    [("backfilled", PBool has_been_backfilled)] >>
  check_return ProjectBackfilled has_been_backfilled.

Definition _has_customized_fingerprint
    (event : Event) (variants : gmap string BaseVariant) : M RL bool :=
  emit (CheckEnter CustomizedFingerprint) >>
  let* d := get_data in
  let fingerprint := default (PList []) (d !! "fingerprint") in
  let* has_default := lift (py_contains "{{ default }}" fingerprint) in
  if has_default then
    let* n := lift (py_len fingerprint) in
    if Nat.eqb n 1 then
      (* No custom fingerprinting at all *)
      check_return CustomizedFingerprint false
    else
      (* Hybrid fingerprinting *)
      record_did_call_seer_metric false "hybrid-fingerprint" >>
      check_return CustomizedFingerprint true
  else
    (* Fully customized fingerprint *)
    let fingerprint_variant :=
      match variants !! "custom_fingerprint" with
      | Some v => Some v
      | None => variants !! "built_in_fingerprint"
      end in
    match fingerprint_variant with
    | Some v =>
        record_did_call_seer_metric false (type v) >>
        check_return CustomizedFingerprint true
    | None => check_return CustomizedFingerprint false
    end.

Definition backend_is_limited (key : string) (spec : RateLimitSpec) : M RL bool :=
  fun w =>
    let '(answer, rl) := is_limited E key (limit spec) (window spec) (ratelimiter w) in
    (Ok answer, mkStore (data w) (all_grouphashes w) rl,
     [IsLimited key (limit spec) (window spec)]).

Definition global_key : string := "seer:similarity:global-limit".

Definition project_key (project : Project) : string :=
  "seer:similarity:project-" +:+ pretty (id project) +:+ "-limit".

Definition _ratelimiting_enabled (event : Event) (project : Project) : M RL bool :=
  emit (CheckEnter Ratelimiting) >>
  let global_ratelimit := global_rate_limit (options E) in
  let per_project_ratelimit := per_project_rate_limit (options E) in
  let* global_limit_per_sec :=
    lift (py_truediv (limit global_ratelimit) (window global_ratelimit)) in
  let* project_limit_per_sec :=
    lift (py_truediv (limit per_project_ratelimit) (window per_project_ratelimit)) in
  let logger_extra :=
    [("event_id", PStr (event_id event)); ("project_id", PInt (id project))] in
  let* global_hit := backend_is_limited global_key global_ratelimit in
  if global_hit then
    emit (LoggerWarning "should_call_seer_for_grouping.global_ratelimit_hit"
            (logger_extra ++ [("limit_per_sec", PFloat global_limit_per_sec)])) >>
    record_did_call_seer_metric false "global-rate-limit" >>
    check_return Ratelimiting true
  else
    let* project_hit := backend_is_limited (project_key project) per_project_ratelimit in
    if project_hit then
      emit (LoggerWarning "should_call_seer_for_grouping.project_ratelimit_hit"
              (logger_extra ++ [("limit_per_sec", PFloat project_limit_per_sec)])) >>
      record_did_call_seer_metric false "project-rate-limit" >>
      check_return Ratelimiting true
    else
      check_return Ratelimiting false.

Definition _circuit_breaker_broken (event : Event) (project : Project) : M RL bool :=
  emit (CheckEnter CircuitBreakerBroken) >>
  let breaker_config := circuit_breaker_config (options E) in
  let circuit_broken :=
    negb (should_allow_request E (SEER_SIMILARITY_CIRCUIT_BREAKER_KEY E) breaker_config) in
  (if circuit_broken then
     emit (LoggerWarning "should_call_seer_for_grouping.broken_circuit_breaker"
             ([("event_id", PStr (event_id event)); ("project_id", PInt (id project))]
              ++ breaker_config)) >>
     record_did_call_seer_metric false "circuit-breaker"
   else ret tt) >>
  check_return CircuitBreakerBroken circuit_broken.

Definition _has_empty_stacktrace_string
    (event : Event) (variants : gmap string BaseVariant) : M RL bool :=
  emit (CheckEnter EmptyStacktraceString) >>
  emit GetStacktraceString >>
  let stacktrace_string :=
    opt_str (get_stacktrace_string_with_metrics E variants (platform event) INGEST) in
  if negb (py_truthy stacktrace_string) then
    (if is_str "" stacktrace_string then
       record_did_call_seer_metric false "empty-stacktrace-string"
     else ret tt) >>
    check_return EmptyStacktraceString true
  else
    (* event.data["stacktrace_string"] = stacktrace_string *)
    let* d := get_data in
    set_data (<["stacktrace_string" := stacktrace_string]> d) >>
    check_return EmptyStacktraceString false.

(** [killswitch_enabled] is called from the gate directly. *)
Definition call_killswitch_enabled (event : Event) (project : Project) : M RL bool :=
  emit (CheckEnter Killswitch) >>
  check_return Killswitch (killswitch_enabled E (id project) INGEST event).

Definition should_call_seer_for_grouping
    (event : Event) (variants : gmap string BaseVariant) : M RL bool :=
  let project := project event in
  (* Check both of these before returning based on either *)
  let* content_is_eligible := _event_content_is_seer_eligible event in
  let* seer_enabled_for_project := _project_has_similarity_grouping_enabled project in
  if negb (content_is_eligible && seer_enabled_for_project) then ret false
  else
    let* blocked :=
      _has_customized_fingerprint event variants
      <||> _has_too_many_contributing_frames event variants
      <||> call_killswitch_enabled event project
      <||> _circuit_breaker_broken event project
      <||> _has_empty_stacktrace_string event variants
      <||> _ratelimiting_enabled event project in
    if blocked then ret false else ret true.

(** [GroupHash.objects.filter(hash=h, project_id=p).first()] *)
Definition GroupHash_filter_first (h : string) (p : Z) : M RL (option GroupHash) :=
  emit (GroupHashQuery h p) >>
  ret (List.find (fun g => String.eqb (hash g) h && (project_id g =? p)%Z)
         (GroupHash_objects E)).

Definition call_seer (request_data : SimilarIssuesEmbeddingsRequest)
    : M RL (list SeerSimilarIssueData) :=
  emit (SeerRequest request_data) >>
  lift (get_similarity_data_from_seer E request_data).

Definition metadata_dict (results : list pyval) : gmap string pyval :=
  <["similarity_model_version" := PStr (SEER_SIMILARITY_MODEL_VERSION E)]>
    (<["results" := PList results]> ∅).

(** The dictionary literal [request_data]. *)
Definition request_data_of (event : Event) (num_neighbors : Z)
    (stacktrace_string : pyval) (exception_type : option string)
    : SimilarIssuesEmbeddingsRequest :=
  {| req_event_id := event_id event;
     req_hash := get_primary_hash event;
     req_project_id := id (project event);
     req_stacktrace := stacktrace_string;
     req_exception_type :=
       match exception_type with
       | Some t => if String.eqb t "" then None
                   else Some (filter_null_from_string E t)
       | None => None
       end;
     req_k := num_neighbors;
     req_referrer := "ingest";
     req_use_reranking := use_reranking (options E) |}.

(** [event.data.get("stacktrace_string", get_stacktrace_string_with_metrics(...))] *)
Definition stacktrace_string_of (event : Event) (variants : gmap string BaseVariant)
    (d : gmap string pyval) : pyval :=
  default
    (opt_str (get_stacktrace_string_with_metrics E variants (platform event) INGEST))
    (d !! "stacktrace_string").

Definition get_seer_similar_issues
    (event : Event) (variants : gmap string BaseVariant) (num_neighbors : Z)
    : M RL (gmap string pyval * option GroupHash) :=
  let event_hash := get_primary_hash event in
  let* d := get_data in
  let exception_type := get_path_exception_type E d in
  (* the default of dict.get is an argument: it is computed in any case *)
  emit GetStacktraceString >>
  let stacktrace_string := stacktrace_string_of event variants d in
  if negb (py_truthy stacktrace_string) then
    emit (LoggerInfo "get_seer_similar_issues.empty_stacktrace"
            [("event_id", PStr (event_id event));
             ("project_id", PInt (id (project event)));
             ("stacktrace_string", stacktrace_string)]) >>
    ret (metadata_dict [], None)
  else
    let request_data :=
      request_data_of event num_neighbors stacktrace_string exception_type in
    (* event.data.pop("stacktrace_string", None) *)
    set_data (delete "stacktrace_string" d) >>
    (* Similar issues are returned with the closest match first *)
    let* seer_results := call_seer request_data in
    let seer_results_json := map asdict seer_results in
    let similar_issues_metadata := metadata_dict seer_results_json in
    let* parent_grouphash :=
      match seer_results with
      | top :: _ => GroupHash_filter_first (parent_hash top) (id (project event))
      | [] => ret None
      end in
    emit (LoggerInfo "get_seer_similar_issues.results"
            [("event_id", PStr (event_id event));
             ("project_id", PInt (id (project event)));
             ("hash", PStr event_hash);
             ("results", PList seer_results_json);
             ("grouphash_returned", PBool (bool_decide (is_Some parent_grouphash)))]) >>
    ret (similar_issues_metadata, parent_grouphash).

(** [gh_metadata.update(...)], the keyword arguments already evaluated *)
Definition metadata_update (gm : GroupHashMetadata)
    (date_sent : Z) (event_sent : string) (model : pyval)
    (matched : option GroupHash) (distance : pyval) : GroupHashMetadata :=
  {| date_added := date_added gm;
     seer_date_sent := Some date_sent;
     seer_event_sent := Some event_sent;
     seer_model := model;
     seer_matched_grouphash := matched;
     seer_match_distance := distance |}.

Definition with_metadata (g : GroupHash) (gm : GroupHashMetadata) : GroupHash :=
  {| hash := hash g; project_id := project_id g; metadata := Some gm |}.

Definition maybe_check_seer_for_matching_grouphash
    (event : Event) (variants : gmap string BaseVariant) : M RL (option GroupHash) :=
  let* go := should_call_seer_for_grouping event variants in
  if go then
    record_did_call_seer_metric true "none" >>
    let* outcome := attempt (get_seer_similar_issues event variants 1) in
    match outcome with
    | Raise e =>
        (* Insurance - in theory we shouldn't ever land here *)
        emit (CaptureException e
                [("event", PStr (event_id event));
                 ("project", PInt (id (project event)))]) >>
        ret None
    | Ok (seer_response_data, seer_matched_grouphash) =>
        (* Find the GroupHash corresponding to the hash value sent to Seer *)
        let primary_hash := get_primary_hash event in
        let* candidates := get_grouphashes in
        (* list(filter(...))[0] *)
        match list_find (fun grouphash => hash grouphash = primary_hash) candidates with
        | None => raise IndexError
        | Some (i, grouphash_sent) =>
            (* Update the relevant GroupHash with Seer results *)
            match metadata grouphash_sent with
            | Some gh_metadata =>
                let* model :=
                  lift (py_getitem seer_response_data "similarity_model_version") in
                let* distance :=
                  match seer_matched_grouphash with
                  | Some _ =>
                      let* results := lift (py_getitem seer_response_data "results") in
                      let* top := lift (py_index results 0) in
                      lift (py_key top "stacktrace_distance")
                  | None => ret PNone
                  end in
                emit (MetadataUpdate (hash grouphash_sent)) >>
                set_grouphashes
                  (<[i := with_metadata grouphash_sent
                            (metadata_update gh_metadata (date_added gh_metadata)
                               (event_id event) model seer_matched_grouphash distance)]>
                     candidates) >>
                ret seer_matched_grouphash
            | None => ret seer_matched_grouphash
            end
        end
    end
  else ret None.

End Pipeline.

(** ** A concrete environment *)

(** A fixed-window counter standing for the rate limiter backend: every
    call counts, and a key is limited once its count exceeds the limit. *)
Definition counter_is_limited (key : string) (limit window : Z) (rl : gmap string Z)
    : bool * gmap string Z :=
  let n := (default 0 (rl !! key) + 1)%Z in
  ((limit <? n)%Z, <[key := n]> rl).

Module Demo.

Definition demo_options : Options :=
  {| metrics_sample_rate := 1 # 1;
     global_rate_limit := {| limit := 20; window := 1 |};
     per_project_rate_limit := {| limit := 5; window := 1 |};
     circuit_breaker_config := [("error_limit", PInt 33250); ("recovery_duration", PInt 300)];
     use_reranking := true |}.

Definition H_parent : string := "aaaabbbbccccdddd".
Definition H_event : string := "1111222233334444".

Definition parent_row : GroupHash :=
  {| hash := H_parent; project_id := 7; metadata := None |}.

Definition neighbour : SeerSimilarIssueData :=
  {| parent_hash := H_parent; stacktrace_distance := 1 # 100;
     message_distance := 5 # 100; should_group := true |}.

(** The collaborators of the runs below: the event has a stacktrace when
    its payload has an exception, no killswitch is set, the circuit breaker
    is closed and the derived stacktrace string is not empty.  Whether the
    frame-count check fires and what Seer answers are left open. *)
Definition make_deps (too_many_frames : bool)
    (seer : Result (list SeerSimilarIssueData)) : Deps (gmap string Z) :=
  {| options := demo_options;
     SEER_SIMILARITY_MODEL_VERSION := "v0";
     SEER_INELIGIBLE_EVENT_PLATFORMS := {["other"; "csp"]};
     SEER_SIMILARITY_CIRCUIT_BREAKER_KEY := "seer.similarity";
     event_content_has_stacktrace := fun _ d => bool_decide (is_Some (d !! "exception"));
     has_too_many_contributing_frames := fun _ _ _ => too_many_frames;
     killswitch_enabled := fun _ _ _ => false;
     should_allow_request := fun _ _ => true;
     get_stacktrace_string_with_metrics :=
       fun _ _ _ => Some "ZeroDivisionError: division by zero";
     is_limited := counter_is_limited;
     get_path_exception_type := fun _ => Some "ZeroDivisionError";
     filter_null_from_string := fun s => s;
     get_similarity_data_from_seer := fun _ => seer;
     GroupHash_objects := [parent_row] |}.

(** Every check lets the event through; Seer answers with one neighbour
    whose parent is in the ledger. *)
Definition deps : Deps (gmap string Z) := make_deps false (Ok [neighbour]).

(** The same, with the frame-count check firing. *)
Definition deps_excess_frames : Deps (gmap string Z) := make_deps true (Ok [neighbour]).

(** The same as [deps], with the Seer call failing. *)
Definition deps_seer_down : Deps (gmap string Z) :=
  make_deps false (Raise (Exc "TimeoutError")).

Definition backfilled_project : Project :=
  {| id := 7;
     project_options := {["sentry:similarity_backfill_completed" := PInt 1700000000]} |}.

Definition event : Event :=
  {| event_id := "e0e0e0e0"; project := backfilled_project;
     platform := Some "python"; get_primary_hash := H_event |}.

Definition exception_payload : pyval :=
  PDict [("values", PList [PDict [("type", PStr "ZeroDivisionError")]])].

Definition data_default : gmap string pyval :=
  {["exception" := exception_payload; "fingerprint" := PList [PStr "{{ default }}"]]}.

Definition data_hybrid : gmap string pyval :=
  {["exception" := exception_payload;
    "fingerprint" := PList [PStr "{{ default }}"; PStr "extra"]]}.

Definition data_no_stacktrace : gmap string pyval :=
  {["fingerprint" := PList [PStr "{{ default }}"]]}.

Definition no_variants : gmap string BaseVariant := ∅.

Definition custom_variants : gmap string BaseVariant :=
  {["custom_fingerprint" := {| type := "custom_fingerprint" |}]}.

Definition sent_metadata : GroupHashMetadata :=
  {| date_added := 1730000000; seer_date_sent := None; seer_event_sent := None;
     seer_model := PNone; seer_matched_grouphash := None; seer_match_distance := PNone |}.

Definition sent_row : GroupHash :=
  {| hash := H_event; project_id := 7; metadata := Some sent_metadata |}.

Definition secondary_row : GroupHash :=
  {| hash := "9999888877776666"; project_id := 7; metadata := None |}.

Definition store (d : gmap string pyval) (candidates : list GroupHash)
    : Store (gmap string Z) :=
  mkStore d candidates ∅.

(** The global limit is used up; the project's is not. *)
Definition store_global_limited (d : gmap string pyval) (candidates : list GroupHash)
    : Store (gmap string Z) :=
  mkStore d candidates {[global_key := 20%Z]}.

End Demo.

(** ** Reading a trace *)

Definition checks_entered (t : list Effect) : list Check :=
  omap (fun e => match e with CheckEnter c => Some c | _ => None end) t.

Definition limiter_calls (t : list Effect) : list (string * Z * Z) :=
  omap (fun e => match e with IsLimited k l w => Some (k, l, w) | _ => None end) t.

Definition seer_requests (t : list Effect) : list SimilarIssuesEmbeddingsRequest :=
  omap (fun e => match e with SeerRequest r => Some r | _ => None end) t.

Definition ledger_queries (t : list Effect) : list (string * Z) :=
  omap (fun e => match e with GroupHashQuery h p => Some (h, p) | _ => None end) t.

Definition metadata_updates (t : list Effect) : list string :=
  omap (fun e => match e with MetadataUpdate h => Some h | _ => None end) t.

Definition warnings (t : list Effect) : list string :=
  omap (fun e => match e with LoggerWarning m _ => Some m | _ => None end) t.

(** The blockers recorded with [call_made=False]. *)
Definition blockers (t : list Effect) : list string :=
  omap (fun e => match e with RecordDidCallSeer false b => Some b | _ => None end) t.

(** A check declares the event ineligible: the first two return whether
    the event is fit, the other six whether it is blocked. *)
Definition fires (c : Check) (value : bool) : bool :=
  match c with
  | ContentEligible | ProjectBackfilled => negb value
  | _ => value
  end.

(** For each check that fired, the checks entered after it returned. *)
Fixpoint entered_after_fires (t : list Effect) : list (Check * list Check) :=
  match t with
  | [] => []
  | CheckReturn c v :: post =>
      if fires c v then (c, checks_entered post) :: entered_after_fires post
      else entered_after_fires post
  | _ :: post => entered_after_fires post
  end.

(** The checks that returned, with what they returned. *)
Definition checks_returned (t : list Effect) : list (Check * bool) :=
  omap (fun e => match e with CheckReturn c v => Some (c, v) | _ => None end) t.

Definition is_check_event (e : Effect) : bool :=
  match e with
  | CheckEnter _ | CheckReturn _ _ => true
  | _ => false
  end.

(** The trace restricted to the calls and returns of the checks. *)
Definition check_events (t : list Effect) : list Effect :=
  List.filter is_check_event t.

(** The order of the checks as the specification numbers them. *)
Definition spec_order : list Check :=
  [ContentEligible; ProjectBackfilled; TooManyFrames; CustomizedFingerprint;
   Killswitch; CircuitBreakerBroken; EmptyStacktraceString; Ratelimiting].

(** The order of the checks in [should_call_seer_for_grouping]. *)
Definition code_order : list Check :=
  [ContentEligible; ProjectBackfilled; CustomizedFingerprint; TooManyFrames;
   Killswitch; CircuitBreakerBroken; EmptyStacktraceString; Ratelimiting].

(** The gate as the specification words it: the checks run in
    [spec_order], and nothing is entered after a check has fired. *)
Definition gate_as_specified (t : list Effect) : Prop :=
  checks_entered t `prefix_of` spec_order ∧
  Forall (fun p => p.2 = []) (entered_after_fires t).

(** The gate as the code has it: the first two checks are both evaluated
    whatever the first one says; the others follow in [code_order], and
    nothing is entered after one of them has fired. *)
Definition gate_as_coded (t : list Effect) : Prop :=
  checks_entered t `prefix_of` code_order ∧
  take 2 (checks_entered t) = [ContentEligible; ProjectBackfilled] ∧
  Forall (fun p => p.2 = [] ∨ p = (ContentEligible, [ProjectBackfilled]))
    (entered_after_fires t).

Section Statements.

Context {RL : Type} (E : Deps RL).

(** One of the seven checks before the rate limit declares the event
    ineligible, read off the inputs of the gate. *)
Definition earlier_check_fails (event : Event) (variants : gmap string BaseVariant)
    (w : Store RL) : Prop :=
  event_content_has_stacktrace E event (data w) = false
  ∨ (∃ p, platform event = Some p ∧ p ∈ SEER_INELIGIBLE_EVENT_PLATFORMS E)
  ∨ py_truthy (get_option (project event) "sentry:similarity_backfill_completed") = false
  ∨ has_too_many_contributing_frames E event variants INGEST = true
  ∨ result_of (_has_customized_fingerprint event variants w) = Ok true
  ∨ killswitch_enabled E (id (project event)) INGEST event = true
  ∨ should_allow_request E (SEER_SIMILARITY_CIRCUIT_BREAKER_KEY E)
      (circuit_breaker_config (options E)) = false
  ∨ py_truthy
      (opt_str (get_stacktrace_string_with_metrics E variants (platform event) INGEST))
    = false.

(** What a check may do to the store: only the rate limit check moves
    the limiter's counters, only the stacktrace-string check writes
    [event.data]. *)
Definition store_frame (c : Check) (w w' : Store RL) : Prop :=
  match c with
  | Ratelimiting =>
      data w' = data w ∧ all_grouphashes w' = all_grouphashes w
  | EmptyStacktraceString =>
      all_grouphashes w' = all_grouphashes w ∧ ratelimiter w' = ratelimiter w
  | _ => w' = w
  end.

(** What every check of the gate guarantees about one run of it. *)
Definition check_contract (c : Check) (w : Store RL)
    (o : Result bool * Store RL * list Effect) : Prop :=
  check_events (effects_of o) =
    CheckEnter c :: match result_of o with
                    | Ok b => [CheckReturn c b]
                    | Raise _ => []
                    end
  ∧ store_frame c w (store_of o)
  ∧ metadata_updates (effects_of o) = []
  ∧ (c ≠ Ratelimiting → limiter_calls (effects_of o) = [])
  ∧ match c with
    | CustomizedFingerprint | Ratelimiting => True
    | _ => ∃ b, result_of o = Ok b
    end
  ∧ match result_of o with
    | Ok b => if fires c b then True else warnings (effects_of o) = []
    | Raise _ => warnings (effects_of o) = []
    end.

(** What Seer answers to the request that [get_seer_similar_issues]
    builds from the store [w]. *)
Definition seer_answer (event : Event) (variants : gmap string BaseVariant)
    (num_neighbors : Z) (w : Store RL) : Result (list SeerSimilarIssueData) :=
  get_similarity_data_from_seer E
    (request_data_of E event num_neighbors
       (stacktrace_string_of E event variants (data w))
       (get_path_exception_type E (data w))).

(** The orchestrator as the specification words it for a missing
    candidate: the gate passes, the client returns, no candidate carries
    the primary hash; then a warning is logged and the call returns. *)
Definition tolerates_missing_candidate (event : Event)
    (variants : gmap string BaseVariant) (w : Store RL) : Prop :=
  let gate := should_call_seer_for_grouping E event variants w in
  let o := maybe_check_seer_for_matching_grouphash E event variants w in
  result_of gate = Ok true →
  (∃ md matched,
     result_of (get_seer_similar_issues E event variants 1 (store_of gate))
     = Ok (md, matched)) →
  list_find (λ grouphash, hash grouphash = get_primary_hash event) (all_grouphashes w)
    = None →
  (∃ r, result_of o = Ok r) ∧ warnings (effects_of o) ≠ [].

(** The row that the ledger query of [get_seer_similar_issues] selects
    for a list of neighbours. *)
Definition parent_of (event : Event) (results : list SeerSimilarIssueData)
    : option GroupHash :=
  match results with
  | top :: _ =>
      List.find
        (fun g => String.eqb (hash g) (parent_hash top)
                  && (project_id g =? id (project event))%Z)
        (GroupHash_objects E)
  | [] => None
  end.

End Statements.

(** ** Further readings of a trace *)

(** The metrics sent with [metrics.incr]: key and tags. *)
Definition metrics_emitted (t : list Effect) : list (string * list (string * pyval)) :=
  omap (fun e => match e with MetricsIncr k _ tags => Some (k, tags) | _ => None end) t.

(** The blockers recorded with [call_made=True]. *)
Definition calls_made (t : list Effect) : list string :=
  omap (fun e => match e with RecordDidCallSeer true b => Some b | _ => None end) t.

(** The exceptions handed to [sentry_sdk.capture_exception]. *)
Definition captured (t : list Effect) : list PyExc :=
  omap (fun e => match e with CaptureException e _ => Some e | _ => None end) t.

(** One mark for each call of [get_stacktrace_string_with_metrics]. *)
Definition string_computations (t : list Effect) : list unit :=
  omap (fun e => match e with GetStacktraceString => Some tt | _ => None end) t.

(** The warnings with their [extra]. *)
Definition warnings_logged (t : list Effect) : list (string * list (string * pyval)) :=
  omap (fun e => match e with LoggerWarning m x => Some (m, x) | _ => None end) t.

Definition content_metric_key : string :=
  "grouping.similarity.event_content_seer_eligible".

Definition backfill_metric_key : string :=
  "grouping.similarity.event_project_backfill_status".

Definition scratch_key : string := "stacktrace_string".

Section MoreStatements.

Context {RL : Type} (E : Deps RL).

(** [event.platform in SEER_INELIGIBLE_EVENT_PLATFORMS] *)
Definition platform_ineligible (event : Event) : bool :=
  match platform event with
  | Some p => bool_decide (p ∈ SEER_INELIGIBLE_EVENT_PLATFORMS E)
  | None => false
  end.

(** [variants.get("custom_fingerprint") or variants.get("built_in_fingerprint")] *)
Definition fingerprint_variant_of (variants : gmap string BaseVariant)
    : option BaseVariant :=
  match variants !! "custom_fingerprint" with
  | Some v => Some v
  | None => variants !! "built_in_fingerprint"
  end.

(** One of the six checks before the stacktrace-string check declares the
    event ineligible, read off the inputs of the gate. *)
Definition early_check_fails (event : Event) (variants : gmap string BaseVariant)
    (w : Store RL) : Prop :=
  event_content_has_stacktrace E event (data w) = false
  ∨ platform_ineligible event = true
  ∨ py_truthy (get_option (project event) "sentry:similarity_backfill_completed") = false
  ∨ result_of (_has_customized_fingerprint event variants w) = Ok true
  ∨ has_too_many_contributing_frames E event variants INGEST = true
  ∨ killswitch_enabled E (id (project event)) INGEST event = true
  ∨ should_allow_request E (SEER_SIMILARITY_CIRCUIT_BREAKER_KEY E)
      (circuit_breaker_config (options E)) = false.

(** Every input of the first seven checks lets the event through. *)
Definition all_clear (event : Event) (variants : gmap string BaseVariant)
    (w : Store RL) (s : string) : Prop :=
  event_content_has_stacktrace E event (data w) = true
  ∧ platform_ineligible event = false
  ∧ py_truthy (get_option (project event) "sentry:similarity_backfill_completed") = true
  ∧ result_of (_has_customized_fingerprint event variants w) = Ok false
  ∧ has_too_many_contributing_frames E event variants INGEST = false
  ∧ killswitch_enabled E (id (project event)) INGEST event = false
  ∧ should_allow_request E (SEER_SIMILARITY_CIRCUIT_BREAKER_KEY E)
      (circuit_breaker_config (options E)) = true
  ∧ get_stacktrace_string_with_metrics E variants (platform event) INGEST = Some s
  ∧ s ≠ "".

(** What a check of the gate guarantees beyond [check_contract]. *)
Definition check_extras (c : Check) (w : Store RL)
    (o : Result bool * Store RL * list Effect) : Prop :=
  seer_requests (effects_of o) = []
  ∧ ledger_queries (effects_of o) = []
  ∧ captured (effects_of o) = []
  ∧ calls_made (effects_of o) = []
  ∧ string_computations (effects_of o) =
      match c with EmptyStacktraceString => [tt] | _ => [] end
  ∧ match c with
    | ContentEligible | ProjectBackfilled => True
    | _ => metrics_emitted (effects_of o) = []
    end
  ∧ match c with
    | ContentEligible | ProjectBackfilled => blockers (effects_of o) = []
    | _ =>
        match result_of o with
        | Ok true => length (blockers (effects_of o)) ≤ 1
        | _ => blockers (effects_of o) = []
        end
    end
  ∧ ∀ k, k ≠ scratch_key → data (store_of o) !! k = data w !! k.

End MoreStatements.

(** The blockers that the gate's own checks can record, the fingerprint
    variant's type apart. *)
Definition fixed_blockers : list string :=
  ["hybrid-fingerprint"; "excess-frames"; "circuit-breaker";
   "empty-stacktrace-string"; "global-rate-limit"; "project-rate-limit"].

Definition blocker_of_gate (variants : gmap string BaseVariant) (b : string) : Prop :=
  b ∈ fixed_blockers ∨ ∃ v, fingerprint_variant_of variants = Some v ∧ b = type v.

(** The concrete environment again, with options and payloads at their
    edges. *)
Module Edge.

Definition options_zero_window : Options :=
  {| metrics_sample_rate := 1 # 1;
     global_rate_limit := {| limit := 20; window := 1 |};
     per_project_rate_limit := {| limit := 5; window := 0 |};
     circuit_breaker_config := [];
     use_reranking := false |}.

(** [Demo.deps] with a per-project window of zero seconds. *)
Definition deps_zero_window : Deps (gmap string Z) :=
  {| options := options_zero_window;
     SEER_SIMILARITY_MODEL_VERSION := SEER_SIMILARITY_MODEL_VERSION Demo.deps;
     SEER_INELIGIBLE_EVENT_PLATFORMS := SEER_INELIGIBLE_EVENT_PLATFORMS Demo.deps;
     SEER_SIMILARITY_CIRCUIT_BREAKER_KEY := SEER_SIMILARITY_CIRCUIT_BREAKER_KEY Demo.deps;
     event_content_has_stacktrace := event_content_has_stacktrace Demo.deps;
     has_too_many_contributing_frames := has_too_many_contributing_frames Demo.deps;
     killswitch_enabled := killswitch_enabled Demo.deps;
     should_allow_request := should_allow_request Demo.deps;
     get_stacktrace_string_with_metrics := get_stacktrace_string_with_metrics Demo.deps;
     is_limited := counter_is_limited;
     get_path_exception_type := get_path_exception_type Demo.deps;
     filter_null_from_string := filter_null_from_string Demo.deps;
     get_similarity_data_from_seer := get_similarity_data_from_seer Demo.deps;
     GroupHash_objects := GroupHash_objects Demo.deps |}.

(** A payload whose fingerprint is [None]. *)
Definition data_null_fingerprint : gmap string pyval :=
  {["exception" := Demo.exception_payload; "fingerprint" := PNone]}.

(** A payload with a tag beside the fingerprint. *)
Definition data_tagged : gmap string pyval :=
  {["exception" := Demo.exception_payload;
    "fingerprint" := PList [PStr "{{ default }}"];
    "environment" := PStr "production"]}.

End Edge.

(** ** Symbolic execution *)

Ltac unfold_module :=
  cbv beta iota zeta delta
    [should_call_seer_for_grouping _event_content_is_seer_eligible
     _project_has_similarity_grouping_enabled _has_customized_fingerprint
     _has_too_many_contributing_frames call_killswitch_enabled
     _circuit_breaker_broken _has_empty_stacktrace_string _ratelimiting_enabled
     backend_is_limited check_return metrics_incr record_did_call_seer_metric
     get_seer_similar_issues call_seer GroupHash_filter_first
     orM bind ret raise lift emit attempt get_data set_data
     get_grouphashes set_grouphashes].

Ltac reduce_run :=
  cbv beta iota zeta delta
    [result_of store_of effects_of fst snd app data all_grouphashes ratelimiter
     checks_entered limiter_calls seer_requests ledger_queries metadata_updates
     warnings blockers checks_returned entered_after_fires fires omap list_omap
     check_events List.filter is_check_event negb andb].

(** Case analysis on the innermost scrutinee that blocks the run. *)
Ltac split_run :=
  match goal with
  | |- context [match ?x with _ => _ end] =>
      lazymatch x with
      | context [match _ with _ => _ end] => fail
      | _ => destruct x eqn:?
      end
  end.

Ltac run := unfold_module; reduce_run; repeat (split_run; reduce_run).

(** ** Traces *)

Lemma check_events_app (t1 t2 : list Effect) :
  check_events (t1 ++ t2) = check_events t1 ++ check_events t2.
Proof. apply List.filter_app. Qed.

Lemma checks_entered_events (t : list Effect) :
  checks_entered t = checks_entered (check_events t).
Proof.
  unfold checks_entered, check_events.
  induction t as [|e t IH]; [reflexivity|].
  destruct e; cbn; rewrite ?IH; reflexivity.
Qed.

Lemma entered_after_fires_events (t : list Effect) :
  entered_after_fires t = entered_after_fires (check_events t).
Proof.
  induction t as [|e t IH]; [reflexivity|].
  destruct e; cbn [check_events List.filter is_check_event entered_after_fires];
    fold (check_events t); try exact IH.
  rewrite <- IH, <- checks_entered_events. reflexivity.
Qed.

Lemma checks_returned_events (t : list Effect) :
  checks_returned t = checks_returned (check_events t).
Proof.
  unfold checks_returned, check_events.
  induction t as [|e t IH]; [reflexivity|].
  destruct e; cbn; rewrite ?IH; reflexivity.
Qed.

Lemma limiter_calls_app (t1 t2 : list Effect) :
  limiter_calls (t1 ++ t2) = limiter_calls t1 ++ limiter_calls t2.
Proof. apply omap_app. Qed.

Lemma metadata_updates_app (t1 t2 : list Effect) :
  metadata_updates (t1 ++ t2) = metadata_updates t1 ++ metadata_updates t2.
Proof. apply omap_app. Qed.

Lemma warnings_app (t1 t2 : list Effect) :
  warnings (t1 ++ t2) = warnings t1 ++ warnings t2.
Proof. apply omap_app. Qed.

(** ** The checks, one by one *)

Section Checks.

Context {RL : Type} (E : Deps RL).

Ltac contract :=
  intros; match goal with w : Store _ |- _ => destruct w end;
  unfold check_contract; run;
  repeat split; try reflexivity; try done; eauto.

Lemma content_contract ev w :
  check_contract ContentEligible w (_event_content_is_seer_eligible E ev w).
Proof. contract. Qed.

Lemma backfill_contract p w :
  check_contract ProjectBackfilled w (_project_has_similarity_grouping_enabled E p w).
Proof. contract. Qed.

Lemma fingerprint_contract ev vs (w : Store RL) :
  check_contract CustomizedFingerprint w (_has_customized_fingerprint ev vs w).
Proof. contract. Qed.

Lemma frames_contract ev vs w :
  check_contract TooManyFrames w (_has_too_many_contributing_frames E ev vs w).
Proof. contract. Qed.

Lemma killswitch_contract ev p w :
  check_contract Killswitch w (call_killswitch_enabled E ev p w).
Proof. contract. Qed.

Lemma breaker_contract ev p w :
  check_contract CircuitBreakerBroken w (_circuit_breaker_broken E ev p w).
Proof. contract. Qed.

Lemma stacktrace_string_contract ev vs w :
  check_contract EmptyStacktraceString w (_has_empty_stacktrace_string E ev vs w).
Proof. contract. Qed.

Lemma ratelimiting_contract ev p w :
  check_contract Ratelimiting w (_ratelimiting_enabled E ev p w).
Proof. contract. Qed.

(** What each of the first seven checks answers, from its inputs. *)

Ltac value := intros; match goal with w : Store _ |- _ => destruct w end; run; reflexivity.

Lemma content_value ev w :
  result_of (_event_content_is_seer_eligible E ev w) =
  Ok (event_content_has_stacktrace E ev (data w) &&
      negb (match platform ev with
            | Some p => bool_decide (p ∈ SEER_INELIGIBLE_EVENT_PLATFORMS E)
            | None => false
            end)).
Proof. value. Qed.

Lemma backfill_value p w :
  result_of (_project_has_similarity_grouping_enabled E p w) =
  Ok (py_truthy (get_option p "sentry:similarity_backfill_completed")).
Proof. value. Qed.

Lemma frames_value ev vs w :
  result_of (_has_too_many_contributing_frames E ev vs w) =
  Ok (has_too_many_contributing_frames E ev vs INGEST).
Proof. value. Qed.

Lemma killswitch_value ev p w :
  result_of (call_killswitch_enabled E ev p w) =
  Ok (killswitch_enabled E (id p) INGEST ev).
Proof. value. Qed.

Lemma breaker_value ev p w :
  result_of (_circuit_breaker_broken E ev p w) =
  Ok (negb (should_allow_request E (SEER_SIMILARITY_CIRCUIT_BREAKER_KEY E)
              (circuit_breaker_config (options E)))).
Proof. value. Qed.

Lemma fingerprint_returns ev vs (w : Store RL) fp :
  default (PList []) (data w !! "fingerprint") = PList fp →
  ∃ b, result_of (_has_customized_fingerprint ev vs w) = Ok b.
Proof.
  destruct w as [d gs rl]. cbn [data]. intros Hfp.
  unfold _has_customized_fingerprint.
  cbv beta iota zeta delta [bind ret emit lift get_data check_return
    record_did_call_seer_metric data].
  rewrite Hfp. cbn [py_contains py_len].
  run; eauto.
Qed.

Lemma ratelimiting_returns ev p w :
  window (global_rate_limit (options E)) ≠ 0%Z →
  window (per_project_rate_limit (options E)) ≠ 0%Z →
  ∃ b, result_of (_ratelimiting_enabled E ev p w) = Ok b.
Proof.
  destruct w as [d gs rl]. intros Hg Hp.
  unfold _ratelimiting_enabled, py_truediv.
  destruct (Z.eqb_spec (window (global_rate_limit (options E))) 0); [done|].
  destruct (Z.eqb_spec (window (per_project_rate_limit (options E))) 0); [done|].
  run; eauto.
Qed.

Lemma stacktrace_string_value ev vs w :
  result_of (_has_empty_stacktrace_string E ev vs w) =
  Ok (negb (py_truthy
              (opt_str (get_stacktrace_string_with_metrics E vs (platform ev) INGEST)))).
Proof. value. Qed.

End Checks.

(** ** The gate *)

Ltac through lem :=
  let H := fresh "Hc" in
  let Hev := fresh "Hev" in
  let Hst := fresh "Hst" in
  let Hmu := fresh "Hmu" in
  let Hlim := fresh "Hlim" in
  let Hok := fresh "Hok" in
  let Hwarn := fresh "Hwarn" in
  lazymatch type of lem with
  | check_contract _ _ ?run =>
      pose proof lem as H;
      unfold check_contract, store_frame in H;
      destruct run as [[[[|]|?] ?] ?] eqn:?;
      cbn [result_of store_of effects_of fst snd] in H;
      destruct H as (Hev & Hst & Hmu & Hlim & Hok & Hwarn);
      lazymatch type of Hok with
      | True => idtac
      | _ => destruct Hok as [? Hok]; try discriminate Hok
      end;
      clear Hok;
      cbn [fires negb] in Hwarn;
      try specialize (Hlim ltac:(discriminate));
      try subst
  end.

Ltac next_contract E :=
  match goal with
  | |- context [_event_content_is_seer_eligible E ?ev ?w] =>
      through (content_contract E ev w)
  | |- context [_project_has_similarity_grouping_enabled E ?p ?w] =>
      through (backfill_contract E p w)
  | |- context [_has_customized_fingerprint ?ev ?vs ?w] =>
      through (fingerprint_contract ev vs w)
  | |- context [_has_too_many_contributing_frames E ?ev ?vs ?w] =>
      through (frames_contract E ev vs w)
  | |- context [call_killswitch_enabled E ?ev ?p ?w] =>
      through (killswitch_contract E ev p w)
  | |- context [_circuit_breaker_broken E ?ev ?p ?w] =>
      through (breaker_contract E ev p w)
  | |- context [_has_empty_stacktrace_string E ?ev ?vs ?w] =>
      through (stacktrace_string_contract E ev vs w)
  | |- context [_ratelimiting_enabled E ?ev ?p ?w] =>
      through (ratelimiting_contract E ev p w)
  end.

Ltac gate_paths E :=
  unfold should_call_seer_for_grouping;
  cbv beta iota zeta delta [bind orM ret];
  repeat (next_contract E; cbv beta iota zeta delta [negb andb]);
  cbv beta iota zeta delta [result_of store_of effects_of fst snd].

Ltac read_traces :=
  try rewrite checks_entered_events; try rewrite entered_after_fires_events;
  rewrite ?check_events_app, ?limiter_calls_app, ?metadata_updates_app, ?warnings_app;
  repeat match goal with
    | H : check_events _ = _ |- _ => rewrite H; clear H
    | H : limiter_calls _ = _ |- _ => rewrite H; clear H
    | H : metadata_updates _ = _ |- _ => rewrite H; clear H
    | H : warnings _ = _ |- _ => rewrite H; clear H
    end.

Section Gate.

Context {RL : Type} (E : Deps RL).

(** C1, as the code has it.  The gate always runs the content check and
    then the project backfill check, whatever the content check says; the
    other six checks follow in the order customized fingerprint, too many
    contributing frames, killswitch, circuit breaker, empty stacktrace
    string, rate limit, and once one of these has fired no further check is
    entered.  The gate answers "call Seer" exactly when all eight checks
    ran and none fired, and answers "do not call" only after a check
    fired. *)
Theorem gate_order ev vs w :
  let o := should_call_seer_for_grouping E ev vs w in
  gate_as_coded (effects_of o) ∧
  match result_of o with
  | Ok true =>
      checks_entered (effects_of o) = code_order ∧ entered_after_fires (effects_of o) = []
  | Ok false => entered_after_fires (effects_of o) ≠ []
  | Raise _ => True
  end.
Proof.
  cbv zeta. unfold gate_as_coded.
  gate_paths E.
  all: read_traces.
  all: cbn.
  all: split; [split; [eexists; reflexivity | split; [reflexivity|]] |].
  all: try done.
  all: try (repeat constructor; auto; fail).
Qed.

Lemma gate_frame ev vs w :
  let o := should_call_seer_for_grouping E ev vs w in
  all_grouphashes (store_of o) = all_grouphashes w ∧
  metadata_updates (effects_of o) = [].
Proof.
  cbv zeta. gate_paths E.
  all: read_traces.
  all: intuition congruence.
Qed.

(** The gate returns, rather than raises, when the event's fingerprint is
    a list and neither rate-limit window is zero. *)
Lemma gate_returns ev vs w fp :
  default (PList []) (data w !! "fingerprint") = PList fp →
  window (global_rate_limit (options E)) ≠ 0%Z →
  window (per_project_rate_limit (options E)) ≠ 0%Z →
  ∃ go, result_of (should_call_seer_for_grouping E ev vs w) = Ok go.
Proof.
  intros Hfp Hg Hp.
  pose proof (fingerprint_returns ev vs w fp Hfp) as Hf.
  pose proof (ratelimiting_returns E ev (project ev)) as Hr.
  gate_paths E.
  all: cbv beta iota delta [result_of fst] in *.
  all: eauto.
  all: try (destruct Hf as [b Hb]; discriminate Hb).
  all: match goal with
       | Hrun : _ratelimiting_enabled _ _ _ ?s = _ |- _ =>
           destruct (Hr s Hg Hp) as [b Hb]; rewrite Hrun in Hb; discriminate Hb
       end.
Qed.

Lemma gate_pass_quiet ev vs w :
  let o := should_call_seer_for_grouping E ev vs w in
  result_of o = Ok true → warnings (effects_of o) = [].
Proof.
  cbv zeta. gate_paths E.
  all: try discriminate.
  intros _. read_traces. reflexivity.
Qed.

(** C2.  The rate limit check is the last one: whenever one of the seven
    earlier checks declares the event ineligible (no stacktrace, ineligible
    platform, project not backfilled, too many frames, customized
    fingerprint, killswitch, open circuit breaker, empty stacktrace string),
    the limiter backend is never asked, its counters stay as they were, and
    the gate does not let the event through. *)
Theorem gate_rate_limit_last ev vs w :
  earlier_check_fails E ev vs w ->
  let o := should_call_seer_for_grouping E ev vs w in
  limiter_calls (effects_of o) = [] ∧
  ratelimiter (store_of o) = ratelimiter w ∧
  result_of o ≠ Ok true.
Proof.
  intros H. cbv zeta. unfold earlier_check_fails in H.
  pose proof (content_value E ev w) as Hv1.
  pose proof (backfill_value E (project ev) w) as Hv2.
  pose proof (frames_value E ev vs w) as Hv4.
  pose proof (killswitch_value E ev (project ev) w) as Hv5.
  pose proof (breaker_value E ev (project ev) w) as Hv6.
  pose proof (stacktrace_string_value E ev vs w) as Hv7.
  gate_paths E.
  all: read_traces.
  all: cbv beta iota delta [result_of fst] in *.
  all: try (split; [reflexivity | split; [intuition congruence | discriminate]]).
  (* the rate limit check was reached: every earlier check let the event through *)
  all: exfalso; simplify_eq.
  all: destruct H as [H|[(p & Hp & Hin)|[H|[H|[H|[H|[H|H]]]]]]]; try congruence.
  all: try (rewrite H in *; discriminate).
  all: rewrite Hp, bool_decide_eq_true_2 in Hv1 by done.
  all: destruct (event_content_has_stacktrace E ev (data w)); discriminate.
Qed.

End Gate.

(** ** The similarity client *)

Section Client.

Context {RL : Type} (E : Deps RL).

Lemma metadata_dict_results js :
  metadata_dict E js !! "results" = Some (PList js).
Proof.
  unfold metadata_dict.
  rewrite lookup_insert_ne by done. apply lookup_insert_eq.
Qed.

Lemma metadata_dict_version js :
  metadata_dict E js !! "similarity_model_version" =
  Some (PStr (SEER_SIMILARITY_MODEL_VERSION E)).
Proof. unfold metadata_dict. apply lookup_insert_eq. Qed.

Lemma metadata_dict_dom js :
  dom (metadata_dict E js) = ({["similarity_model_version"; "results"]} : gset string).
Proof.
  unfold metadata_dict. rewrite !dom_insert_L, dom_empty_L. set_solver.
Qed.

(** The three ways through [get_seer_similar_issues]. *)
Lemma get_seer_similar_issues_run ev vs k w :
  let s := stacktrace_string_of E ev vs (data w) in
  let req := request_data_of E ev k s (get_path_exception_type E (data w)) in
  let popped :=
    mkStore (delete "stacktrace_string" (data w)) (all_grouphashes w) (ratelimiter w) in
  let o := get_seer_similar_issues E ev vs k w in
  if py_truthy s then
    store_of o = popped ∧
    seer_requests (effects_of o) = [req] ∧
    metadata_updates (effects_of o) = [] ∧
    warnings (effects_of o) = [] ∧
    match seer_answer E ev vs k w with
    | Ok rs =>
        result_of o = Ok (metadata_dict E (map asdict rs), parent_of E ev rs) ∧
        ledger_queries (effects_of o) =
          match rs with
          | top :: _ => [(parent_hash top, id (project ev))]
          | [] => []
          end
    | Raise e => result_of o = Raise e ∧ ledger_queries (effects_of o) = []
    end
  else
    o = (Ok (metadata_dict E [], None), w,
         [GetStacktraceString;
          LoggerInfo "get_seer_similar_issues.empty_stacktrace"
            [("event_id", PStr (event_id ev));
             ("project_id", PInt (id (project ev)));
             ("stacktrace_string", s)]]).
Proof.
  destruct w as [d gs rl]. cbv zeta. unfold seer_answer. cbn [data all_grouphashes ratelimiter].
  unfold get_seer_similar_issues.
  cbv beta iota zeta delta [bind ret get_data set_data emit call_seer lift
    GroupHash_filter_first data all_grouphashes ratelimiter].
  destruct (py_truthy (stacktrace_string_of E ev vs d)); cbn [negb]; [|reflexivity].
  destruct (get_similarity_data_from_seer E _) as [[|top rs]|e]; cbn; repeat split.
Qed.

End Client.

Section Orchestrator.

Context {RL : Type} (E : Deps RL).

Lemma stacktrace_string_cached ev vs w :
  let o := _has_empty_stacktrace_string E ev vs w in
  result_of o = Ok false →
  ∃ s, get_stacktrace_string_with_metrics E vs (platform ev) INGEST = Some s ∧
       py_truthy (PStr s) = true ∧
       data (store_of o) = <["stacktrace_string" := PStr s]> (data w).
Proof.
  destruct w as [d gs rl]. cbv zeta.
  unfold _has_empty_stacktrace_string.
  cbv beta iota zeta delta [bind ret emit get_data set_data check_return
    record_did_call_seer_metric result_of store_of fst snd data].
  destruct (get_stacktrace_string_with_metrics E vs (platform ev) INGEST) as [s|];
    cbn [opt_str]; [|discriminate].
  destruct (py_truthy (PStr s)) eqn:Hs; cbn [negb].
  - intros _. exists s. auto.
  - destruct (is_str "" (PStr s)); discriminate.
Qed.

Lemma gate_caches_string ev vs w :
  let o := should_call_seer_for_grouping E ev vs w in
  result_of o = Ok true →
  ∃ s, py_truthy (PStr s) = true ∧
       data (store_of o) = <["stacktrace_string" := PStr s]> (data w).
Proof.
  cbv zeta.
  pose proof (stacktrace_string_cached ev vs w) as Hs. cbv zeta in Hs.
  gate_paths E.
  all: try discriminate.
  intros _. cbn [result_of store_of fst snd] in Hs.
  destruct (Hs eq_refl) as (str & _ & Htruthy & Hdata).
  exists str. split; [done|].
  repeat match goal with H : _ ∧ _ |- _ => destruct H end.
  congruence.
Qed.

Lemma gate_pass_truthy ev vs w :
  let o := should_call_seer_for_grouping E ev vs w in
  result_of o = Ok true →
  py_truthy (stacktrace_string_of E ev vs (data (store_of o))) = true.
Proof.
  cbv zeta. intros Hpass.
  destruct (gate_caches_string ev vs w Hpass) as (s & Hs & Hdata).
  unfold stacktrace_string_of. rewrite Hdata, lookup_insert_eq. exact Hs.
Qed.

Ltac orchestrate :=
  unfold maybe_check_seer_for_matching_grouphash;
  cbv beta iota zeta delta [bind attempt ret raise lift emit
    record_did_call_seer_metric get_grouphashes set_grouphashes].

(** Every way through the orchestrator, in terms of what the gate says,
    what Seer answers and which candidate carries the primary hash. *)
Lemma orchestrator_run ev vs w :
  let gate := should_call_seer_for_grouping E ev vs w in
  let o := maybe_check_seer_for_matching_grouphash E ev vs w in
  match result_of gate with
  | Raise e => result_of o = Raise e
  | Ok false =>
      result_of o = Ok None ∧ store_of o = store_of gate ∧
      effects_of o = effects_of gate
  | Ok true =>
      match seer_answer E ev vs 1 (store_of gate) with
      | Raise e =>
          result_of o = Ok None ∧
          last (effects_of o) =
            Some (CaptureException e
                    [("event", PStr (event_id ev));
                     ("project", PInt (id (project ev)))]) ∧
          all_grouphashes (store_of o) = all_grouphashes w ∧
          metadata_updates (effects_of o) = []
      | Ok rs =>
          let matched := parent_of E ev rs in
          match list_find (λ grouphash, hash grouphash = get_primary_hash ev)
                  (all_grouphashes w) with
          | None =>
              result_of o = Raise IndexError ∧
              warnings (effects_of o) = [] ∧
              all_grouphashes (store_of o) = all_grouphashes w ∧
              metadata_updates (effects_of o) = []
          | Some (i, g) =>
              result_of o = Ok matched ∧
              all_grouphashes (store_of o) =
                match metadata g with
                | Some gh_metadata =>
                    <[i := {| hash := hash g;
                              project_id := project_id g;
                              metadata :=
                                Some {| date_added := date_added gh_metadata;
                                        seer_date_sent := Some (date_added gh_metadata);
                                        seer_event_sent := Some (event_id ev);
                                        seer_model :=
                                          PStr (SEER_SIMILARITY_MODEL_VERSION E);
                                        seer_matched_grouphash := matched;
                                        seer_match_distance :=
                                          match matched, rs with
                                          | Some _, top :: _ =>
                                              PFloat (stacktrace_distance top)
                                          | _, _ => PNone
                                          end |} |}]>
                      (all_grouphashes w)
                | None => all_grouphashes w
                end ∧
              metadata_updates (effects_of o) =
                match metadata g with
                | Some _ => [hash g]
                | None => []
                end
          end
      end
  end.
Proof.
  cbv zeta.
  destruct (gate_frame E ev vs w) as [Hgs Hmu].
  pose proof (gate_pass_truthy ev vs w) as Htruthy.
  pose proof (gate_pass_quiet E ev vs w) as Hquiet.
  pose proof (get_seer_similar_issues_run E ev vs 1
                (store_of (should_call_seer_for_grouping E ev vs w))) as Hrun.
  cbv zeta in Hrun, Htruthy, Hquiet.
  orchestrate.
  destruct (should_call_seer_for_grouping E ev vs w) as [[[[|]|e1] w1] t1];
    cbn [result_of store_of effects_of fst snd] in *;
    [|by rewrite app_nil_r|done].
  rewrite (Htruthy eq_refl) in Hrun. specialize (Hquiet eq_refl).
  destruct Hrun as (Hst & _ & Hmu2 & Hw2 & Hres).
  unfold metadata_updates, warnings in *.
  destruct (get_seer_similar_issues E ev vs 1 w1) as [[r2 w2] t2].
  cbn [result_of store_of effects_of fst snd] in *. subst w2.
  destruct (seer_answer E ev vs 1 w1) as [rs|e]; destruct Hres as [-> _].
  - cbn [all_grouphashes data ratelimiter]. rewrite Hgs.
    destruct (list_find _ (all_grouphashes w)) as [[i g]|].
    + destruct (metadata g) as [gm|].
      * unfold py_getitem. rewrite metadata_dict_version, metadata_dict_results.
        unfold with_metadata, metadata_update.
        destruct rs as [|top rest]; [|destruct (parent_of E ev (top :: rest))];
          cbn; rewrite ?Hgs; repeat split;
          rewrite omap_app, Hmu; cbn; rewrite omap_app, Hmu2; reflexivity.
      * cbn. rewrite ?Hgs. repeat split.
        rewrite omap_app, Hmu; cbn. rewrite omap_app, Hmu2. reflexivity.
    + cbn. rewrite ?Hgs. repeat split.
      * rewrite omap_app, Hquiet; cbn. rewrite omap_app, Hw2. reflexivity.
      * rewrite omap_app, Hmu; cbn. rewrite omap_app, Hmu2. reflexivity.
  - cbn [result_of store_of effects_of fst snd all_grouphashes].
    repeat split.
    + rewrite app_nil_r, !app_assoc. apply last_snoc.
    + exact Hgs.
    + rewrite omap_app, Hmu; cbn. rewrite !omap_app, Hmu2. reflexivity.
Qed.

(** When the gate has let the event through, the client raises exactly
    when the Seer call does, and returns what [parent_of] finds. *)
Lemma client_after_gate ev vs w :
  let gate := should_call_seer_for_grouping E ev vs w in
  result_of gate = Ok true →
  match seer_answer E ev vs 1 (store_of gate) with
  | Ok rs =>
      result_of (get_seer_similar_issues E ev vs 1 (store_of gate)) =
      Ok (metadata_dict E (map asdict rs), parent_of E ev rs)
  | Raise e =>
      result_of (get_seer_similar_issues E ev vs 1 (store_of gate)) = Raise e
  end.
Proof.
  cbv zeta. intros Hpass.
  pose proof (get_seer_similar_issues_run E ev vs 1
                (store_of (should_call_seer_for_grouping E ev vs w))) as Hrun.
  cbv zeta in Hrun. rewrite (gate_pass_truthy ev vs w Hpass) in Hrun.
  destruct Hrun as (_ & _ & _ & _ & Hres).
  destruct (seer_answer E ev vs 1 _); tauto.
Qed.

(** Where the cached stacktrace string goes.  Once the gate has let the
    event through, the client pops it whatever Seer answers. *)
Lemma scratch_popped_when_gate_passes ev vs w :
  let gate := should_call_seer_for_grouping E ev vs w in
  let o := maybe_check_seer_for_matching_grouphash E ev vs w in
  result_of gate = Ok true →
  data (store_of o) !! "stacktrace_string" = None.
Proof.
  cbv zeta. intros Hpass.
  pose proof (gate_pass_truthy ev vs w Hpass) as Htruthy.
  pose proof (get_seer_similar_issues_run E ev vs 1
                (store_of (should_call_seer_for_grouping E ev vs w))) as Hrun.
  cbv zeta in Hrun. rewrite Htruthy in Hrun. destruct Hrun as (Hst & _).
  orchestrate.
  destruct (should_call_seer_for_grouping E ev vs w) as [[r1 w1] t1].
  cbn [result_of store_of effects_of fst snd] in *. subst r1.
  destruct (get_seer_similar_issues E ev vs 1 w1) as [[[[md m]|e] w2] t2];
    cbn [result_of store_of effects_of fst snd] in *; subst w2;
    [|apply lookup_delete_eq].
  cbn [all_grouphashes].
  destruct (list_find _ _) as [[i g]|]; [|apply lookup_delete_eq].
  destruct (metadata g); [|apply lookup_delete_eq].
  destruct (py_getitem md "similarity_model_version"); [|apply lookup_delete_eq].
  destruct m.
  - destruct (py_getitem md "results") as [v|]; [|apply lookup_delete_eq].
    destruct (py_index v 0) as [v0|]; [|apply lookup_delete_eq].
    destruct (py_key v0 "stacktrace_distance"); apply lookup_delete_eq.
  - apply lookup_delete_eq.
Qed.

(** When it is the rate limit check that stops the event, nobody pops
    it: the string cached by the check before stays in the event's data. *)
Lemma scratch_kept_when_rate_limited ev vs w :
  let gate := should_call_seer_for_grouping E ev vs w in
  let o := maybe_check_seer_for_matching_grouphash E ev vs w in
  (Ratelimiting, true) ∈ checks_returned (effects_of gate) →
  result_of o = Ok None ∧
  ∃ s, py_truthy (PStr s) = true ∧
       data (store_of o) = <["stacktrace_string" := PStr s]> (data w).
Proof.
  cbv zeta.
  pose proof (stacktrace_string_cached ev vs w) as Hs. cbv zeta in Hs.
  orchestrate.
  gate_paths E.
  all: rewrite checks_returned_events; read_traces; cbn.
  all: intros Hin; repeat (apply elem_of_cons in Hin as [Hin|Hin]; [discriminate Hin|]).
  all: try (apply elem_of_nil in Hin; contradiction).
  all: try (apply elem_of_cons in Hin as [Hin|Hin]; [|apply elem_of_nil in Hin]).
  all: try contradiction.
  cbn [result_of store_of fst snd] in Hs.
  destruct (Hs eq_refl) as (str & _ & Htruthy & Hdata).
  split; [reflexivity|]. exists str. split; [done|].
  repeat match goal with H : _ ∧ _ |- _ => destruct H end.
  congruence.
Qed.

(** C3.  When the event passes the gate and [get_seer_similar_issues]
    raises an exception, the orchestrator catches it, reports it to the
    error-tracking sink tagged with the event and project identifiers (the
    last thing it does), returns none, and leaves every candidate ledger
    entry and its metadata as they were. *)
Theorem orchestrator_absorbs_failure ev vs w e :
  let gate := should_call_seer_for_grouping E ev vs w in
  result_of gate = Ok true →
  result_of (get_seer_similar_issues E ev vs 1 (store_of gate)) = Raise e →
  let o := maybe_check_seer_for_matching_grouphash E ev vs w in
  result_of o = Ok None ∧
  last (effects_of o) =
    Some (CaptureException e
            [("event", PStr (event_id ev)); ("project", PInt (id (project ev)))]) ∧
  all_grouphashes (store_of o) = all_grouphashes w ∧
  metadata_updates (effects_of o) = [].
Proof.
  cbv zeta. intros Hpass Hraise.
  pose proof (orchestrator_run ev vs w) as Hrun.
  pose proof (client_after_gate ev vs w Hpass) as Hclient.
  cbv zeta in Hrun, Hclient. rewrite Hpass in Hrun.
  destruct (seer_answer E ev vs 1 _) as [rs|e'].
  - rewrite Hclient in Hraise. discriminate.
  - rewrite Hclient in Hraise. injection Hraise as ->. exact Hrun.
Qed.

(** C8.  When the event passes the gate, Seer answers and [g], at index
    [i], is the first candidate carrying the event's primary hash: if [g]
    has a metadata block, that block is updated in place with a call
    timestamp equal to its own [date_added], the event id, the model
    version, the matched entry (or none) and the top result's stacktrace
    distance when there is a match (none otherwise); if [g] has no metadata
    block, nothing is updated.  The orchestrator returns the match. *)
Theorem orchestrator_updates_metadata ev vs w rs i g :
  let gate := should_call_seer_for_grouping E ev vs w in
  result_of gate = Ok true →
  seer_answer E ev vs 1 (store_of gate) = Ok rs →
  list_find (λ grouphash, hash grouphash = get_primary_hash ev) (all_grouphashes w)
    = Some (i, g) →
  let o := maybe_check_seer_for_matching_grouphash E ev vs w in
  let matched := parent_of E ev rs in
  result_of o = Ok matched ∧
  all_grouphashes (store_of o) =
    match metadata g with
    | Some gh_metadata =>
        <[i := {| hash := hash g;
                  project_id := project_id g;
                  metadata :=
                    Some {| date_added := date_added gh_metadata;
                            seer_date_sent := Some (date_added gh_metadata);
                            seer_event_sent := Some (event_id ev);
                            seer_model := PStr (SEER_SIMILARITY_MODEL_VERSION E);
                            seer_matched_grouphash := matched;
                            seer_match_distance :=
                              match matched, rs with
                              | Some _, top :: _ => PFloat (stacktrace_distance top)
                              | _, _ => PNone
                              end |} |}]>
          (all_grouphashes w)
    | None => all_grouphashes w
    end ∧
  metadata_updates (effects_of o) =
    match metadata g with
    | Some _ => [hash g]
    | None => []
    end.
Proof.
  cbv zeta. intros Hpass Hseer Hfind.
  pose proof (orchestrator_run ev vs w) as Hrun.
  cbv zeta in Hrun. rewrite Hpass, Hseer, Hfind in Hrun. exact Hrun.
Qed.

(** C4, as the code has it.  Provided the gate itself returns, the
    orchestrator returns without raising when the gate rejects the event,
    when the similarity client raises, and when some candidate carries the
    event's primary hash.  When the gate passes, the client returns and no
    candidate carries the primary hash, indexing the empty filter result
    raises [IndexError] out of the orchestrator; no warning is logged and
    no candidate is touched. *)
Theorem orchestrator_raises_without_candidate ev vs w go :
  let gate := should_call_seer_for_grouping E ev vs w in
  result_of gate = Ok go →
  let o := maybe_check_seer_for_matching_grouphash E ev vs w in
  match go, result_of (get_seer_similar_issues E ev vs 1 (store_of gate)) with
  | false, _ => result_of o = Ok None
  | true, Raise _ => result_of o = Ok None
  | true, Ok (_, matched) =>
      match list_find (λ grouphash, hash grouphash = get_primary_hash ev)
              (all_grouphashes w) with
      | Some _ => result_of o = Ok matched
      | None =>
          result_of o = Raise IndexError ∧
          warnings (effects_of o) = [] ∧
          all_grouphashes (store_of o) = all_grouphashes w
      end
  end.
Proof.
  cbv zeta. intros Hgate.
  pose proof (orchestrator_run ev vs w) as Hrun.
  cbv zeta in Hrun. rewrite Hgate in Hrun.
  destruct go; [|tauto].
  pose proof (client_after_gate ev vs w Hgate) as Hclient. cbv zeta in Hclient.
  destruct (seer_answer E ev vs 1 _) as [rs|e]; rewrite Hclient; [|tauto].
  destruct (list_find _ (all_grouphashes w)) as [[i g]|]; tauto.
Qed.

End Orchestrator.

(** ** The claims about single functions *)

Section Functions.

Context {RL : Type} (E : Deps RL).

Lemma is_str_spec s v : is_str s v = true ↔ v = PStr s.
Proof.
  destruct v; cbn; try (split; [discriminate | intros; discriminate]).
  rewrite String.eqb_eq. split; congruence.
Qed.

Lemma existsb_is_str s (l : list pyval) :
  existsb (is_str s) l = true ↔ PStr s ∈ l.
Proof.
  rewrite existsb_exists, list_elem_of_In. split.
  - intros (v & Hin & Hv). apply is_str_spec in Hv. congruence.
  - intros Hin. exists (PStr s). split; [done|]. by apply is_str_spec.
Qed.


(** C6.  When the Seer call is made and returns the neighbours [rs]: for
    a non-empty [rs] the ledger is queried once, for the parent hash of the
    first neighbour within the event's project, and the match is a stored
    entry with that hash and project, or none when the ledger has no such
    entry; for an empty [rs] the ledger is not queried and the match is
    none. *)
Theorem client_returns_parent_of_best_match ev vs k w rs :
  py_truthy (stacktrace_string_of E ev vs (data w)) = true →
  seer_answer E ev vs k w = Ok rs →
  let o := get_seer_similar_issues E ev vs k w in
  ∃ md matched,
    result_of o = Ok (md, matched) ∧
    matched = parent_of E ev rs ∧
    match rs with
    | [] => matched = None ∧ ledger_queries (effects_of o) = []
    | top :: _ =>
        ledger_queries (effects_of o) = [(parent_hash top, id (project ev))] ∧
        match matched with
        | Some g =>
            g ∈ GroupHash_objects E ∧
            hash g = parent_hash top ∧ project_id g = id (project ev)
        | None =>
            ∀ g, g ∈ GroupHash_objects E →
                 ¬ (hash g = parent_hash top ∧ project_id g = id (project ev))
        end
    end.
Proof.
  intros Htruthy Hseer. cbv zeta.
  pose proof (get_seer_similar_issues_run E ev vs k w) as Hrun.
  cbv zeta in Hrun. rewrite Htruthy, Hseer in Hrun.
  destruct Hrun as (_ & _ & _ & _ & Hres & Hq).
  eexists _, _. split; [exact Hres|]. split; [reflexivity|].
  destruct rs as [|top rest]; [done|].
  split; [exact Hq|]. cbn [parent_of].
  destruct (List.find _ (GroupHash_objects E)) as [g|] eqn:Hfind.
  - apply find_some in Hfind as [Hin Hg].
    apply andb_true_iff in Hg as [Hh Hp].
    apply String.eqb_eq in Hh. apply Z.eqb_eq in Hp.
    by rewrite list_elem_of_In.
  - intros g Hin [Hh Hp]. rewrite list_elem_of_In in Hin.
    pose proof (find_none _ _ Hfind g Hin) as Hg. cbn beta in Hg.
    rewrite Hh, Hp, String.eqb_refl, Z.eqb_refl in Hg. discriminate.
Qed.

(** C7.  Whenever [get_seer_similar_issues] returns, its metadata has
    exactly the two keys "results" and "similarity_model_version", the
    latter holding the active model version and the former the full list
    of results; with an empty result list the metadata is the empty-results
    dictionary and the match is none.  With an empty stacktrace string the
    results are empty and no request is sent to Seer; otherwise exactly one
    request is sent and the results are what Seer answered.  The function
    raises only when the Seer call does. *)
Theorem client_metadata_shape ev vs k w :
  let o := get_seer_similar_issues E ev vs k w in
  let cached := stacktrace_string_of E ev vs (data w) in
  match result_of o with
  | Ok (md, matched) =>
      md !! "similarity_model_version" = Some (PStr (SEER_SIMILARITY_MODEL_VERSION E)) ∧
      dom md = ({["similarity_model_version"; "results"]} : gset string) ∧
      ∃ rs,
        md !! "results" = Some (PList (map asdict rs)) ∧
        match rs with
        | [] => md = metadata_dict E [] ∧ matched = None
        | _ :: _ => True
        end ∧
        if py_truthy cached
        then seer_answer E ev vs k w = Ok rs ∧
             seer_requests (effects_of o) =
               [request_data_of E ev k cached (get_path_exception_type E (data w))]
        else rs = [] ∧ seer_requests (effects_of o) = []
  | Raise e =>
      py_truthy cached = true ∧ seer_answer E ev vs k w = Raise e
  end.
Proof.
  cbv zeta.
  pose proof (get_seer_similar_issues_run E ev vs k w) as Hrun.
  cbv zeta in Hrun.
  destruct (py_truthy (stacktrace_string_of E ev vs (data w))).
  - destruct Hrun as (_ & Hreq & _ & _ & Hres).
    destruct (seer_answer E ev vs k w) as [rs|e]; destruct Hres as [-> _]; [|done].
    split; [apply metadata_dict_version|].
    split; [apply metadata_dict_dom|].
    exists rs. split; [apply metadata_dict_results|].
    destruct rs; done.
  - rewrite Hrun. cbn [result_of effects_of fst snd].
    split; [apply metadata_dict_version|].
    split; [apply metadata_dict_dom|].
    exists []. split; [apply metadata_dict_results|]. done.
Qed.

Lemma py_truediv_ok a b :
  b ≠ 0%Z → py_truediv a b = Ok (Qdiv (inject_Z a) (inject_Z b)).
Proof.
  intros Hb. unfold py_truediv. destruct (Z.eqb_spec b 0); [done|reflexivity].
Qed.

(** C9.  The rate limit check asks the limiter for the global key first
    and for the project's key second, never the other way round.  With
    non-zero windows: when the global key is limited the project's key is
    not asked at all and the blocker recorded is global-rate-limit; when
    only the project's key is limited the blocker is project-rate-limit;
    when neither is, no blocker is recorded and the check passes. *)
Theorem ratelimit_global_before_project ev p w :
  let o := _ratelimiting_enabled E ev p w in
  let g := global_rate_limit (options E) in
  let pp := per_project_rate_limit (options E) in
  let global_call := (global_key, limit g, window g) in
  let project_call := (project_key p, limit pp, window pp) in
  limiter_calls (effects_of o) `prefix_of` [global_call; project_call] ∧
  (window g ≠ 0%Z → window pp ≠ 0%Z →
   let global := is_limited E global_key (limit g) (window g) (ratelimiter w) in
   if global.1 then
     result_of o = Ok true ∧
     limiter_calls (effects_of o) = [global_call] ∧
     blockers (effects_of o) = ["global-rate-limit"] ∧
     ratelimiter (store_of o) = global.2
   else
     let per_project :=
       is_limited E (project_key p) (limit pp) (window pp) global.2 in
     limiter_calls (effects_of o) = [global_call; project_call] ∧
     ratelimiter (store_of o) = per_project.2 ∧
     if per_project.1 then
       result_of o = Ok true ∧ blockers (effects_of o) = ["project-rate-limit"]
     else
       result_of o = Ok false ∧ blockers (effects_of o) = []).
Proof.
  destruct w as [d gs rl]. cbv zeta. split.
  - run; solve [by eexists | by exists [] | by eexists [_] | by eexists [_; _]].
  - intros Hg Hp.
    unfold _ratelimiting_enabled.
    rewrite (py_truediv_ok _ _ Hg), (py_truediv_ok _ _ Hp).
    cbn [ratelimiter].
    run; cbn; done.
Qed.

End Functions.

(** C10, where the code departs from it.  An event with no
    "stacktrace_string" in its data passes the first seven checks and is
    then stopped by the global rate limit: the orchestrator returns none
    without sending anything to Seer, and the event's data still holds the
    cached stacktrace string. *)
Theorem rate_limited_event_keeps_stacktrace_string :
  let w := Demo.store_global_limited Demo.data_default [Demo.sent_row] in
  let o := maybe_check_seer_for_matching_grouphash
             Demo.deps Demo.event Demo.no_variants w in
  data w !! "stacktrace_string" = None ∧
  result_of o = Ok None ∧
  blockers (effects_of o) = ["global-rate-limit"] ∧
  seer_requests (effects_of o) = [] ∧
  data (store_of o) !! "stacktrace_string" =
    Some (PStr "ZeroDivisionError: division by zero").
Proof. vm_compute. repeat split. Qed.

(** ** Concrete runs *)

Import Demo.

(** C1 as stated does not hold.  For an event without a stacktrace the
    content check fires and the backfill check is entered all the same; for
    an event with a hybrid fingerprint and too many frames the fingerprint
    check is entered third, where the specification has the frame-count
    check. *)
Lemma gate_order_counterexample :
  ¬ gate_as_specified
      (effects_of (should_call_seer_for_grouping deps event no_variants
                     (store data_no_stacktrace [])))
  ∧ ¬ gate_as_specified
        (effects_of (should_call_seer_for_grouping deps_excess_frames event no_variants
                       (store data_hybrid []))).
Proof.
  split; intros [Hprefix Hafter].
  - (* no stacktrace: the content check fires, the backfill check still runs *)
    assert (Hrun : entered_after_fires
                     (effects_of (should_call_seer_for_grouping deps event no_variants
                                    (store data_no_stacktrace [])))
                   = [(ContentEligible, [ProjectBackfilled])])
      by (vm_compute; reflexivity).
    rewrite Hrun in Hafter. inversion Hafter as [|? ? Hhd _]. discriminate Hhd.
  - (* hybrid fingerprint and too many frames: the fingerprint check runs first *)
    assert (Hrun : checks_entered
                     (effects_of (should_call_seer_for_grouping deps_excess_frames event
                                    no_variants (store data_hybrid [])))
                   = [ContentEligible; ProjectBackfilled; CustomizedFingerprint])
      by (vm_compute; reflexivity).
    rewrite Hrun in Hprefix. destruct Hprefix as [k Hk]. discriminate Hk.
Qed.

(** C4 as stated does not hold.  The gate passes, Seer answers, and the
    only candidate carries another hash: the orchestrator raises. *)
Lemma missing_candidate_counterexample :
  ¬ tolerates_missing_candidate deps event no_variants
      (store data_default [secondary_row]).
Proof.
  unfold tolerates_missing_candidate. cbv zeta. intros H.
  assert (Hrun : result_of (maybe_check_seer_for_matching_grouphash deps event no_variants
                              (store data_default [secondary_row]))
                 = Raise IndexError)
    by (vm_compute; reflexivity).
  destruct H as [[r Hr] _].
  - vm_compute. reflexivity.
  - exists (metadata_dict deps (map asdict [neighbour])), (Some parent_row).
    vm_compute. reflexivity.
  - vm_compute. reflexivity.
  - rewrite Hrun in Hr. discriminate Hr.
Qed.

(** C2 applied to an event with too many contributing frames. *)
Lemma gate_rate_limit_last_witness :
  earlier_check_fails deps_excess_frames event no_variants (store data_default [])
  ∧ limiter_calls
      (effects_of (should_call_seer_for_grouping deps_excess_frames event no_variants
                     (store data_default []))) = [].
Proof.
  assert (H : earlier_check_fails deps_excess_frames event no_variants
                (store data_default []))
    by (do 3 right; left; reflexivity).
  split; [exact H|].
  exact (proj1 (gate_rate_limit_last deps_excess_frames event no_variants
                  (store data_default []) H)).
Defined.

(** C3 applied to a run in which the Seer call times out. *)
Lemma orchestrator_absorbs_failure_witness :
  let w := store data_default [sent_row] in
  result_of (should_call_seer_for_grouping deps_seer_down event no_variants w) = Ok true
  ∧ result_of (maybe_check_seer_for_matching_grouphash deps_seer_down event no_variants w)
    = Ok None
  ∧ all_grouphashes
      (store_of (maybe_check_seer_for_matching_grouphash deps_seer_down event
                   no_variants w)) = [sent_row].
Proof.
  cbv zeta.
  assert (Hpass : result_of (should_call_seer_for_grouping deps_seer_down event no_variants
                               (store data_default [sent_row])) = Ok true)
    by (vm_compute; reflexivity).
  assert (Hraise : result_of
                     (get_seer_similar_issues deps_seer_down event no_variants 1
                        (store_of (should_call_seer_for_grouping deps_seer_down event
                                     no_variants (store data_default [sent_row]))))
                   = Raise (Exc "TimeoutError"))
    by (vm_compute; reflexivity).
  destruct (orchestrator_absorbs_failure deps_seer_down event no_variants
              (store data_default [sent_row]) (Exc "TimeoutError") Hpass Hraise)
    as (Hres & _ & Hgs & _).
  repeat split; assumption.
Defined.

(** C8 applied to a run with two candidates, the second of which carries
    the primary hash and a metadata block. *)
Lemma orchestrator_updates_metadata_witness :
  let w := store data_default [secondary_row; sent_row] in
  result_of (should_call_seer_for_grouping deps event no_variants w) = Ok true
  ∧ result_of (maybe_check_seer_for_matching_grouphash deps event no_variants w)
    = Ok (Some parent_row)
  ∧ metadata_updates
      (effects_of (maybe_check_seer_for_matching_grouphash deps event no_variants w))
    = [H_event].
Proof.
  cbv zeta.
  assert (Hpass : result_of (should_call_seer_for_grouping deps event no_variants
                               (store data_default [secondary_row; sent_row])) = Ok true)
    by (vm_compute; reflexivity).
  assert (Hseer : seer_answer deps event no_variants 1
                    (store_of (should_call_seer_for_grouping deps event no_variants
                                 (store data_default [secondary_row; sent_row])))
                  = Ok [neighbour])
    by reflexivity.
  assert (Hfind : list_find (λ grouphash, hash grouphash = get_primary_hash event)
                    (all_grouphashes (store data_default [secondary_row; sent_row]))
                  = Some (1, sent_row))
    by (vm_compute; reflexivity).
  destruct (orchestrator_updates_metadata deps event no_variants
              (store data_default [secondary_row; sent_row]) [neighbour] 1 sent_row
              Hpass Hseer Hfind)
    as (Hres & _ & Hmu).
  repeat split; assumption.
Defined.

(** C4, as the code has it, applied to a run with no matching candidate. *)
Lemma orchestrator_raises_without_candidate_witness :
  let w := store data_default [secondary_row] in
  result_of (should_call_seer_for_grouping deps event no_variants w) = Ok true
  ∧ result_of (maybe_check_seer_for_matching_grouphash deps event no_variants w)
    = Raise IndexError.
Proof.
  cbv zeta.
  assert (Hpass : result_of (should_call_seer_for_grouping deps event no_variants
                               (store data_default [secondary_row])) = Ok true)
    by (vm_compute; reflexivity).
  split; [exact Hpass|].
  assert (Hclient : result_of
                      (get_seer_similar_issues deps event no_variants 1
                         (store_of (should_call_seer_for_grouping deps event no_variants
                                      (store data_default [secondary_row]))))
                    = Ok (metadata_dict deps (map asdict [neighbour]), Some parent_row))
    by (vm_compute; reflexivity).
  assert (Hfind : list_find (λ grouphash, hash grouphash = get_primary_hash event)
                    (all_grouphashes (store data_default [secondary_row]))
                  = None)
    by (vm_compute; reflexivity).
  pose proof (orchestrator_raises_without_candidate deps event no_variants
                (store data_default [secondary_row]) true Hpass) as H.
  cbv zeta in H. rewrite Hclient, Hfind in H. exact (proj1 H).
Defined.


(** C6 applied to a run in which Seer returns one neighbour. *)
Lemma client_returns_parent_of_best_match_witness :
  let w := store data_default [] in
  py_truthy (stacktrace_string_of deps event no_variants (data w)) = true
  ∧ seer_answer deps event no_variants 1 w = Ok [neighbour]
  ∧ ∃ md matched,
      result_of (get_seer_similar_issues deps event no_variants 1 w) = Ok (md, matched).
Proof.
  cbv zeta.
  assert (Htruthy : py_truthy (stacktrace_string_of deps event no_variants
                                 (data (store data_default []))) = true)
    by (vm_compute; reflexivity).
  assert (Hseer : seer_answer deps event no_variants 1 (store data_default [])
                  = Ok [neighbour])
    by reflexivity.
  split; [exact Htruthy|]. split; [exact Hseer|].
  destruct (client_returns_parent_of_best_match deps event no_variants 1
              (store data_default []) [neighbour] Htruthy Hseer)
    as (md & matched & Hres & _ & _).
  exists md, matched. exact Hres.
Defined.

(** C9 applied to a store whose global limit is used up. *)
Lemma ratelimit_global_before_project_witness :
  window (global_rate_limit (options deps)) ≠ 0%Z
  ∧ window (per_project_rate_limit (options deps)) ≠ 0%Z
  ∧ limiter_calls
      (effects_of (_ratelimiting_enabled deps event backfilled_project
                     (store_global_limited data_default [])))
    = [(global_key, limit (global_rate_limit (options deps)),
        window (global_rate_limit (options deps)))].
Proof.
  assert (Hg : window (global_rate_limit (options deps)) ≠ 0%Z) by discriminate.
  assert (Hp : window (per_project_rate_limit (options deps)) ≠ 0%Z) by discriminate.
  split; [exact Hg|]. split; [exact Hp|].
  assert (Hhit : (is_limited deps global_key
                    (limit (global_rate_limit (options deps)))
                    (window (global_rate_limit (options deps)))
                    (ratelimiter (store_global_limited data_default []))).1 = true)
    by (vm_compute; reflexivity).
  pose proof (proj2 (ratelimit_global_before_project deps event backfilled_project
                       (store_global_limited data_default [])) Hg Hp) as H.
  cbv zeta in H. rewrite Hhit in H. exact (proj1 (proj2 H)).
Defined.


(** * Further properties of the module *)

(** ** More on traces *)

Lemma seer_requests_app (t1 t2 : list Effect) :
  seer_requests (t1 ++ t2) = seer_requests t1 ++ seer_requests t2.
Proof. apply omap_app. Qed.

Lemma ledger_queries_app (t1 t2 : list Effect) :
  ledger_queries (t1 ++ t2) = ledger_queries t1 ++ ledger_queries t2.
Proof. apply omap_app. Qed.

Lemma captured_app (t1 t2 : list Effect) :
  captured (t1 ++ t2) = captured t1 ++ captured t2.
Proof. apply omap_app. Qed.

Lemma calls_made_app (t1 t2 : list Effect) :
  calls_made (t1 ++ t2) = calls_made t1 ++ calls_made t2.
Proof. apply omap_app. Qed.

Lemma string_computations_app (t1 t2 : list Effect) :
  string_computations (t1 ++ t2) = string_computations t1 ++ string_computations t2.
Proof. apply omap_app. Qed.

Lemma metrics_emitted_app (t1 t2 : list Effect) :
  metrics_emitted (t1 ++ t2) = metrics_emitted t1 ++ metrics_emitted t2.
Proof. apply omap_app. Qed.

Lemma blockers_app (t1 t2 : list Effect) :
  blockers (t1 ++ t2) = blockers t1 ++ blockers t2.
Proof. apply omap_app. Qed.

Ltac reduce_more :=
  cbv beta iota zeta delta
    [result_of store_of effects_of fst snd app data all_grouphashes ratelimiter
     seer_requests ledger_queries captured calls_made string_computations
     metrics_emitted blockers warnings_logged warnings limiter_calls
     metadata_updates omap list_omap negb andb length].

Ltac run_more := unfold_module; reduce_more; repeat (split_run; reduce_more).

Ltac keep_other_keys :=
  let k := fresh "k" in
  let Hk := fresh "Hk" in
  intros k Hk; unfold scratch_key in Hk;
  rewrite ?lookup_insert_ne, ?lookup_delete_ne by congruence; reflexivity.

Section MoreChecks.

Context {RL : Type} (E : Deps RL).

Ltac extras :=
  intros; match goal with w : Store _ |- _ => destruct w end;
  unfold check_extras; run_more;
  repeat split; try reflexivity; try done; try lia; try keep_other_keys.

Lemma content_extras ev w :
  check_extras ContentEligible w (_event_content_is_seer_eligible E ev w).
Proof. extras. Qed.

Lemma backfill_extras p w :
  check_extras ProjectBackfilled w (_project_has_similarity_grouping_enabled E p w).
Proof. extras. Qed.

Lemma fingerprint_extras ev vs (w : Store RL) :
  check_extras CustomizedFingerprint w (_has_customized_fingerprint ev vs w).
Proof. extras. Qed.

Lemma frames_extras ev vs w :
  check_extras TooManyFrames w (_has_too_many_contributing_frames E ev vs w).
Proof. extras. Qed.

Lemma killswitch_extras ev p w :
  check_extras Killswitch w (call_killswitch_enabled E ev p w).
Proof. extras. Qed.

Lemma breaker_extras ev p w :
  check_extras CircuitBreakerBroken w (_circuit_breaker_broken E ev p w).
Proof. extras. Qed.

Lemma stacktrace_string_extras ev vs w :
  check_extras EmptyStacktraceString w (_has_empty_stacktrace_string E ev vs w).
Proof. extras. Qed.

Lemma ratelimiting_extras ev p w :
  check_extras Ratelimiting w (_ratelimiting_enabled E ev p w).
Proof. extras. Qed.

End MoreChecks.

(** ** More on the gate *)

Ltac through_more lem lem2 :=
  let Hx := fresh "Hx" in
  pose proof lem2 as Hx; unfold check_extras in Hx;
  through lem;
  cbn [result_of store_of effects_of fst snd] in Hx;
  destruct Hx as (? & ? & ? & ? & ? & ? & ? & ?).

Ltac next_contract_more E :=
  match goal with
  | |- context [_event_content_is_seer_eligible E ?ev ?w] =>
      through_more (content_contract E ev w) (content_extras E ev w)
  | |- context [_project_has_similarity_grouping_enabled E ?p ?w] =>
      through_more (backfill_contract E p w) (backfill_extras E p w)
  | |- context [_has_customized_fingerprint ?ev ?vs ?w] =>
      through_more (fingerprint_contract ev vs w) (fingerprint_extras ev vs w)
  | |- context [_has_too_many_contributing_frames E ?ev ?vs ?w] =>
      through_more (frames_contract E ev vs w) (frames_extras E ev vs w)
  | |- context [call_killswitch_enabled E ?ev ?p ?w] =>
      through_more (killswitch_contract E ev p w) (killswitch_extras E ev p w)
  | |- context [_circuit_breaker_broken E ?ev ?p ?w] =>
      through_more (breaker_contract E ev p w) (breaker_extras E ev p w)
  | |- context [_has_empty_stacktrace_string E ?ev ?vs ?w] =>
      through_more (stacktrace_string_contract E ev vs w)
        (stacktrace_string_extras E ev vs w)
  | |- context [_ratelimiting_enabled E ?ev ?p ?w] =>
      through_more (ratelimiting_contract E ev p w) (ratelimiting_extras E ev p w)
  end.

Ltac gate_paths_more E :=
  unfold should_call_seer_for_grouping;
  cbv beta iota zeta delta [bind orM ret];
  repeat (next_contract_more E; cbv beta iota zeta delta [negb andb]);
  cbv beta iota zeta delta [result_of store_of effects_of fst snd].

Ltac read_more :=
  rewrite ?seer_requests_app, ?ledger_queries_app, ?captured_app, ?calls_made_app,
    ?string_computations_app, ?metrics_emitted_app, ?blockers_app,
    ?limiter_calls_app, ?metadata_updates_app, ?warnings_app;
  repeat match goal with
    | H : seer_requests _ = _ |- _ => rewrite H; clear H
    | H : ledger_queries _ = _ |- _ => rewrite H; clear H
    | H : captured _ = _ |- _ => rewrite H; clear H
    | H : calls_made _ = _ |- _ => rewrite H; clear H
    | H : string_computations _ = _ |- _ => rewrite H; clear H
    | H : metrics_emitted _ = _ |- _ => rewrite H; clear H
    | H : blockers _ = _ |- _ => rewrite H; clear H
    | H : limiter_calls _ = _ |- _ => rewrite H; clear H
    | H : metadata_updates _ = _ |- _ => rewrite H; clear H
    | H : warnings _ = _ |- _ => rewrite H; clear H
    end.

Ltac other_keys_kept :=
  let k := fresh "k" in
  let Hk := fresh "Hk" in
  intros k Hk;
  repeat match goal with
    | H : ∀ k, k ≠ scratch_key → _ |- _ => specialize (H k Hk)
    | H : _ ∧ _ |- _ => destruct H
    end;
  congruence.

Section MoreGate.

Context {RL : Type} (E : Deps RL).

Lemma content_metric ev w :
  let has := event_content_has_stacktrace E ev (data w) in
  metrics_emitted (effects_of (_event_content_is_seer_eligible E ev w)) =
  [(content_metric_key,
    [("eligible", PBool (has && negb (platform_ineligible E ev)));
     ("blocker",
      PStr (if negb has then "no-stacktrace"
            else if platform_ineligible E ev then "unsupported-platform"
            else "none"))])].
Proof.
  destruct w as [d gs rl]. cbv zeta. unfold platform_ineligible.
  run_more; reflexivity.
Qed.

Lemma backfill_metric p w :
  metrics_emitted (effects_of (_project_has_similarity_grouping_enabled E p w)) =
  [(backfill_metric_key,
    [("backfilled",
      PBool (py_truthy (get_option p "sentry:similarity_backfill_completed")))])].
Proof. destruct w as [d gs rl]. run_more; reflexivity. Qed.

(** What the gate as a whole guarantees beyond its order. *)
Lemma gate_extras ev vs w :
  let o := should_call_seer_for_grouping E ev vs w in
  seer_requests (effects_of o) = []
  ∧ ledger_queries (effects_of o) = []
  ∧ captured (effects_of o) = []
  ∧ calls_made (effects_of o) = []
  ∧ length (string_computations (effects_of o)) ≤ 1
  ∧ length (blockers (effects_of o)) ≤ 1
  ∧ match result_of o with
    | Ok true =>
        string_computations (effects_of o) = [tt] ∧ blockers (effects_of o) = []
    | _ => True
    end
  ∧ ∀ k, k ≠ scratch_key → data (store_of o) !! k = data w !! k.
Proof.
  cbv zeta. gate_paths_more E.
  all: read_more.
  all: repeat split; try reflexivity; try (cbn; lia); try other_keys_kept.
  all: rewrite ?app_nil_r, ?app_nil_l; try assumption; try (cbn; lia).
Qed.

End MoreGate.

Section GateExtras.

Context {RL : Type} (E : Deps RL).

(** X1.  Whatever the event, the gate sends exactly two counters with
    [metrics.incr], in this order: the content counter, whose [eligible]
    tag is what the content check answered and whose [blocker] tag is
    no-stacktrace when the event has no stacktrace (also on an ineligible
    platform), unsupported-platform when only the platform is at fault and
    none otherwise; and the backfill counter, whose tag is whether the
    project's backfill option is set.  No other check of the gate sends a
    counter this way. *)
Theorem gate_sends_both_counters ev vs w :
  let o := should_call_seer_for_grouping E ev vs w in
  let has := event_content_has_stacktrace E ev (data w) in
  metrics_emitted (effects_of o) =
  [(content_metric_key,
    [("eligible", PBool (has && negb (platform_ineligible E ev)));
     ("blocker",
      PStr (if negb has then "no-stacktrace"
            else if platform_ineligible E ev then "unsupported-platform"
            else "none"))]);
   (backfill_metric_key,
    [("backfilled",
      PBool (py_truthy
               (get_option (project ev) "sentry:similarity_backfill_completed")))])].
Proof.
  cbv zeta.
  pose proof (content_metric E ev w) as Hm1.
  pose proof (backfill_metric E (project ev) w) as Hm2.
  cbv zeta in Hm1.
  gate_paths_more E.
  all: cbn [effects_of snd] in Hm1, Hm2.
  all: read_more.
  all: rewrite ?app_nil_r; reflexivity.
Qed.

(** X2.  The gate records at most one blocker per event with
    [record_did_call_seer_metric], none at all when it lets the event
    through, and never records that a call was made. *)
Theorem gate_records_at_most_one_blocker ev vs w :
  let o := should_call_seer_for_grouping E ev vs w in
  length (blockers (effects_of o)) ≤ 1
  ∧ calls_made (effects_of o) = []
  ∧ match result_of o with
    | Ok true => blockers (effects_of o) = []
    | _ => True
    end.
Proof.
  cbv zeta.
  destruct (gate_extras E ev vs w) as (_ & _ & _ & Hcalls & _ & Hb & Hpass & _).
  split; [exact Hb|]. split; [exact Hcalls|].
  destruct (result_of _) as [[|]|]; tauto.
Qed.

(** X3.  The stacktrace string is derived only once the six checks before
    it have let the event through: when the content check, the backfill
    check, the fingerprint check, the frame-count check, the killswitch or
    the circuit breaker stops the event, the gate never calls
    [get_stacktrace_string_with_metrics] and leaves the store, the event's
    data included, exactly as it was. *)
Theorem gate_derives_string_late ev vs w :
  early_check_fails E ev vs w →
  let o := should_call_seer_for_grouping E ev vs w in
  string_computations (effects_of o) = []
  ∧ store_of o = w
  ∧ result_of o ≠ Ok true.
Proof.
  intros H. cbv zeta. unfold early_check_fails, platform_ineligible in H.
  pose proof (content_value E ev w) as Hv1.
  pose proof (backfill_value E (project ev) w) as Hv2.
  pose proof (frames_value E ev vs w) as Hv4.
  pose proof (killswitch_value E ev (project ev) w) as Hv5.
  pose proof (breaker_value E ev (project ev) w) as Hv6.
  gate_paths_more E.
  all: read_more.
  all: cbv beta iota delta [result_of fst] in *.
  all: try (split; [reflexivity | split; [reflexivity | discriminate]]).
  (* the stacktrace-string check was reached *)
  all: exfalso; simplify_eq.
  all: destruct H as [H|[H|[H|[H|[H|[H|H]]]]]]; try congruence.
  all: try (rewrite H in *; discriminate).
  all: rewrite H in Hv1.
  all: destruct (event_content_has_stacktrace E ev (data w)); discriminate.
Qed.

End GateExtras.

Section CheckExtras.

Context {RL : Type} (E : Deps RL).

(** The rate limit check with windows that are not zero, run out in
    full. *)
Lemma ratelimiting_outcome ev p w :
  let g := global_rate_limit (options E) in
  let pp := per_project_rate_limit (options E) in
  window g ≠ 0%Z → window pp ≠ 0%Z →
  let o := _ratelimiting_enabled E ev p w in
  let global := is_limited E global_key (limit g) (window g) (ratelimiter w) in
  let per_project := is_limited E (project_key p) (limit pp) (window pp) global.2 in
  let extra :=
    [("event_id", PStr (event_id ev)); ("project_id", PInt (id p))] in
  if global.1 then
    result_of o = Ok true ∧ ratelimiter (store_of o) = global.2 ∧
    limiter_calls (effects_of o) = [(global_key, limit g, window g)] ∧
    warnings_logged (effects_of o) =
      [("should_call_seer_for_grouping.global_ratelimit_hit",
        extra ++ [("limit_per_sec",
                   PFloat (Qdiv (inject_Z (limit g)) (inject_Z (window g))))])]
  else
    ratelimiter (store_of o) = per_project.2 ∧
    limiter_calls (effects_of o) =
      [(global_key, limit g, window g); (project_key p, limit pp, window pp)] ∧
    if per_project.1 then
      result_of o = Ok true ∧
      warnings_logged (effects_of o) =
        [("should_call_seer_for_grouping.project_ratelimit_hit",
          extra ++ [("limit_per_sec",
                     PFloat (Qdiv (inject_Z (limit pp)) (inject_Z (window pp))))])]
    else
      result_of o = Ok false ∧ warnings_logged (effects_of o) = [].
Proof.
  destruct w as [d gs rl]. cbv zeta. intros Hg Hp.
  unfold _ratelimiting_enabled.
  rewrite (py_truediv_ok _ _ Hg), (py_truediv_ok _ _ Hp).
  cbn [ratelimiter].
  run_more; cbn; done.
Qed.

(** X5.  A rate-limit option whose window is zero makes the rate limit
    check raise [ZeroDivisionError] while it computes the per-second rate,
    before the limiter is asked: no budget is consumed, nothing is logged
    or recorded, and the store is as it was. *)
Theorem ratelimit_zero_window_raises ev p w :
  window (global_rate_limit (options E)) = 0%Z
  ∨ window (per_project_rate_limit (options E)) = 0%Z →
  let o := _ratelimiting_enabled E ev p w in
  result_of o = Raise ZeroDivisionError
  ∧ store_of o = w
  ∧ limiter_calls (effects_of o) = []
  ∧ warnings (effects_of o) = []
  ∧ blockers (effects_of o) = [].
Proof.
  destruct w as [d gs rl]. intros Hzero. cbv zeta.
  unfold _ratelimiting_enabled, py_truediv.
  destruct (Z.eqb_spec (window (global_rate_limit (options E))) 0) as [Hg|Hg];
    [run_more; done|].
  destruct Hzero as [Hz|Hz]; [done|].
  rewrite Hz. cbn [Z.eqb].
  run_more; done.
Qed.


(** X7.  On a fingerprint that is a list (the empty list when the event
    has none) the fingerprint check never raises.  It answers "not
    customized" exactly in two cases: the list has one element and holds
    the default marker, or it does not hold the marker and the variants
    have neither a custom nor a built-in fingerprint.  When the list holds
    the marker the variants are not looked at.  One blocker is recorded
    with every "customized" answer, none otherwise. *)
Theorem fingerprint_check_on_lists ev vs (w : Store RL) fp :
  default (PList []) (data w !! "fingerprint") = PList fp →
  let o := _has_customized_fingerprint ev vs w in
  let marker := PStr "{{ default }}" in
  ∃ customized,
    result_of o = Ok customized
    ∧ store_of o = w
    ∧ (customized = false ↔
         (marker ∈ fp ∧ length fp = 1)
         ∨ ((marker ∉ fp) ∧ fingerprint_variant_of vs = None))
    ∧ length (blockers (effects_of o)) = (if customized then 1 else 0)
    ∧ (marker ∈ fp → ∀ vs', _has_customized_fingerprint ev vs' w = o).
Proof.
  destruct w as [d gs rl]. cbn [data]. intros Hfp. cbv zeta.
  unfold _has_customized_fingerprint, fingerprint_variant_of.
  cbv beta iota zeta delta [bind ret emit lift get_data check_return
    record_did_call_seer_metric data].
  rewrite Hfp. cbn [py_contains py_len].
  destruct (existsb (is_str "{{ default }}") fp) eqn:Hex.
  - apply existsb_is_str in Hex.
    destruct (Nat.eqb_spec (length fp) 1) as [Hlen|Hlen].
    + exists false. cbn. repeat split; auto.
    + exists true. cbn. repeat split; auto; try discriminate.
      intros [[_ ?]|[? _]]; done.
  - assert (Hnot : PStr "{{ default }}" ∉ fp).
    { intros Hin. apply existsb_is_str in Hin. congruence. }
    destruct (vs !! "custom_fingerprint") as [v|].
    + exists true. cbn. repeat split; auto; try discriminate; try done.
      intros [[? _]|[_ ?]]; done.
    + destruct (vs !! "built_in_fingerprint") as [v|].
      * exists true. cbn. repeat split; auto; try discriminate; try done.
        intros [[? _]|[_ ?]]; done.
      * exists false. cbn. repeat split; auto; done.
Qed.

(** X8.  A fingerprint that is [None] or a number is not a container:
    the membership test raises [TypeError], and the fingerprint check
    ends there with nothing recorded and the store as it was. *)
Theorem fingerprint_not_a_container_raises ev vs (w : Store RL) v :
  data w !! "fingerprint" = Some v →
  match v with
  | PNone | PBool _ | PInt _ | PFloat _ => True
  | _ => False
  end →
  let o := _has_customized_fingerprint ev vs w in
  result_of o = Raise TypeError
  ∧ store_of o = w
  ∧ blockers (effects_of o) = [].
Proof.
  destruct w as [d gs rl]. cbn [data]. intros Hv Hkind. cbv zeta.
  unfold _has_customized_fingerprint.
  cbv beta iota zeta delta [bind ret emit lift get_data check_return
    record_did_call_seer_metric data].
  rewrite Hv. cbn [default from_option id].
  destruct v; try contradiction; cbn; done.
Qed.

End CheckExtras.

Section GatePasses.

Context {RL : Type} (E : Deps RL).

(** X4.  The converse of the gate's rejections.  When the event has a
    stacktrace on an eligible platform, its project is backfilled, its
    fingerprint is not customized, its frames are not too many, no
    killswitch is set, the circuit breaker is closed, the derived
    stacktrace string [s] is not empty, and the limiter reports neither
    the global nor the project's key as limited, the gate lets the event
    through.  It has then asked the limiter exactly twice, the limiter is
    in the state these two calls left, and [event.data] holds [s] under
    "stacktrace_string" and is otherwise as before. *)
Theorem gate_lets_clear_event_through ev vs w s :
  let g := global_rate_limit (options E) in
  let pp := per_project_rate_limit (options E) in
  let global := is_limited E global_key (limit g) (window g) (ratelimiter w) in
  let per_project :=
    is_limited E (project_key (project ev)) (limit pp) (window pp) global.2 in
  all_clear E ev vs w s →
  window g ≠ 0%Z → window pp ≠ 0%Z →
  global.1 = false → per_project.1 = false →
  let o := should_call_seer_for_grouping E ev vs w in
  result_of o = Ok true
  ∧ data (store_of o) = <[scratch_key := PStr s]> (data w)
  ∧ all_grouphashes (store_of o) = all_grouphashes w
  ∧ ratelimiter (store_of o) = per_project.2
  ∧ limiter_calls (effects_of o) =
      [(global_key, limit g, window g);
       (project_key (project ev), limit pp, window pp)].
Proof.
  cbv zeta. intros (H1 & H2 & H3 & H4 & H5 & H6 & H7 & H8 & H9) Hg Hp Hglobal Hproject.
  unfold platform_ineligible in H2.
  pose proof (content_value E ev w) as Hv1.
  pose proof (backfill_value E (project ev) w) as Hv2.
  pose proof (frames_value E ev vs w) as Hv4.
  pose proof (killswitch_value E ev (project ev) w) as Hv5.
  pose proof (breaker_value E ev (project ev) w) as Hv6.
  pose proof (stacktrace_string_value E ev vs w) as Hv7.
  pose proof (stacktrace_string_cached E ev vs w) as Hs.
  pose proof (ratelimiting_outcome E ev (project ev)) as Hr.
  rewrite H1, H2 in Hv1. rewrite H3 in Hv2. rewrite H5 in Hv4. rewrite H6 in Hv5.
  rewrite H7 in Hv6. rewrite H8 in Hv7, Hs.
  assert (Htruthy : py_truthy (opt_str (Some s)) = true).
  { cbn. destruct (String.eqb_spec s ""); [done|reflexivity]. }
  rewrite Htruthy in Hv7. cbn [negb andb] in *. cbv zeta in Hs.
  gate_paths E.
  all: cbv beta iota delta [result_of store_of effects_of fst snd] in *.
  all: try discriminate.
  all: destruct (Hs eq_refl) as (s' & Hs' & _ & Hdata); simplify_eq.
  all: match goal with
       | Hrun : _ratelimiting_enabled _ _ _ ?st = _ |- _ =>
           specialize (Hr st Hg Hp); cbv zeta in Hr; rewrite Hrun in Hr;
           cbn [result_of store_of effects_of fst snd] in Hr
       end.
  all: repeat match goal with H : _ ∧ _ |- _ => destruct H end.
  all: match goal with
       | Hrl : ratelimiter ?st = ratelimiter _ |- _ => rewrite Hrl in Hr
       end.
  all: rewrite Hglobal, Hproject in Hr.
  all: destruct Hr as (Hrl' & Hcalls & Hres & _); try discriminate Hres.
  read_traces. unfold scratch_key.
  repeat split; congruence.
Qed.

End GatePasses.

Section MoreClient.

Context {RL : Type} (E : Deps RL).

(** What the client leaves alone. *)
Lemma client_extras ev vs k w :
  let o := get_seer_similar_issues E ev vs k w in
  all_grouphashes (store_of o) = all_grouphashes w
  ∧ ratelimiter (store_of o) = ratelimiter w
  ∧ data (store_of o) =
      (if py_truthy (stacktrace_string_of E ev vs (data w))
       then delete scratch_key (data w) else data w)
  ∧ string_computations (effects_of o) = [tt]
  ∧ captured (effects_of o) = []
  ∧ calls_made (effects_of o) = []
  ∧ blockers (effects_of o) = []
  ∧ limiter_calls (effects_of o) = [].
Proof.
  destruct w as [d gs rl]. cbv zeta. cbn [data all_grouphashes ratelimiter].
  unfold get_seer_similar_issues.
  cbv beta iota zeta delta [bind ret get_data set_data emit call_seer lift
    GroupHash_filter_first data all_grouphashes ratelimiter].
  destruct (py_truthy (stacktrace_string_of E ev vs d)); cbn [negb];
    [|cbn; repeat split].
  destruct (get_similarity_data_from_seer E _) as [[|top rs]|e]; cbn; repeat split.
Qed.

(** How the orchestrator's run is made of the gate's and the client's. *)
Lemma orchestrator_shape ev vs w :
  let gate := should_call_seer_for_grouping E ev vs w in
  let client := get_seer_similar_issues E ev vs 1 (store_of gate) in
  let o := maybe_check_seer_for_matching_grouphash E ev vs w in
  match result_of gate with
  | Ok true =>
      data (store_of o) = data (store_of client)
      ∧ ratelimiter (store_of o) = ratelimiter (store_of client)
      ∧ ∃ tail,
          effects_of o =
            effects_of gate ++ RecordDidCallSeer true "none" :: effects_of client ++ tail
          ∧ match result_of client with
            | Raise e =>
                tail = [CaptureException e
                          [("event", PStr (event_id ev));
                           ("project", PInt (id (project ev)))]]
            | Ok _ => tail = [] ∨ ∃ h, tail = [MetadataUpdate h]
            end
  | Ok false =>
      result_of o = Ok None ∧ store_of o = store_of gate
      ∧ effects_of o = effects_of gate
  | Raise e =>
      result_of o = Raise e ∧ store_of o = store_of gate
      ∧ effects_of o = effects_of gate
  end.
Proof.
  cbv zeta.
  unfold maybe_check_seer_for_matching_grouphash.
  cbv beta iota zeta delta [bind attempt ret raise lift emit
    record_did_call_seer_metric get_grouphashes set_grouphashes].
  destruct (should_call_seer_for_grouping E ev vs w) as [[[[|]|e1] w1] t1];
    cbn [result_of store_of effects_of fst snd];
    [|by rewrite app_nil_r|done].
  destruct (get_seer_similar_issues E ev vs 1 w1) as [[[[md m]|e] w2] t2];
    cbn [result_of store_of effects_of fst snd].
  - destruct (list_find _ _) as [[i g]|];
      [|cbn; repeat split; exists []; rewrite !app_nil_r; auto].
    destruct (metadata g);
      [|cbn; repeat split; exists []; rewrite !app_nil_r; auto].
    destruct (py_getitem md "similarity_model_version");
      [|cbn; repeat split; exists []; rewrite !app_nil_r; auto].
    destruct m.
    + destruct (py_getitem md "results") as [v|];
        [|cbn; repeat split; exists []; rewrite !app_nil_r; auto].
      destruct (py_index v 0) as [v0|];
        [|cbn; repeat split; exists []; rewrite !app_nil_r; auto].
      destruct (py_key v0 "stacktrace_distance");
        cbn; repeat split.
      * eexists. split; [|right; eauto]. by rewrite ?app_nil_r, <- ?app_assoc.
      * exists []. rewrite !app_nil_r; auto.
    + cbn. repeat split.
      eexists. split; [|right; eauto]. by rewrite ?app_nil_r, <- ?app_assoc.
  - cbn. repeat split. eexists. split; [|reflexivity].
    by rewrite ?app_nil_r, <- ?app_assoc.
Qed.



(** A passing gate has cached the string it derived. *)
Lemma gate_caches_derived_string ev vs w :
  let o := should_call_seer_for_grouping E ev vs w in
  result_of o = Ok true →
  ∃ s, get_stacktrace_string_with_metrics E vs (platform ev) INGEST = Some s
       ∧ py_truthy (PStr s) = true
       ∧ data (store_of o) = <[scratch_key := PStr s]> (data w).
Proof.
  cbv zeta.
  pose proof (stacktrace_string_cached E ev vs w) as Hs. cbv zeta in Hs.
  gate_paths E.
  all: try discriminate.
  intros _. cbn [result_of store_of fst snd] in Hs.
  destruct (Hs eq_refl) as (str & Hstr & Htruthy & Hdata).
  exists str. split; [done|]. split; [done|].
  repeat match goal with H : _ ∧ _ |- _ => destruct H end.
  unfold scratch_key. congruence.
Qed.

(** The candidates after a run: as before, or with the metadata block of
    the first candidate carrying the primary hash replaced by one of the
    same creation time. *)
Lemma orchestrator_candidates ev vs w :
  let o := maybe_check_seer_for_matching_grouphash E ev vs w in
  all_grouphashes (store_of o) = all_grouphashes w
  ∨ ∃ i g gm gm',
      list_find (λ grouphash, hash grouphash = get_primary_hash ev) (all_grouphashes w)
        = Some (i, g)
      ∧ metadata g = Some gm
      ∧ date_added gm' = date_added gm
      ∧ all_grouphashes (store_of o) =
          <[i := {| hash := hash g; project_id := project_id g;
                    metadata := Some gm' |}]> (all_grouphashes w).
Proof.
  cbv zeta.
  pose proof (orchestrator_run E ev vs w) as Hrun.
  pose proof (orchestrator_shape ev vs w) as Hshape.
  destruct (gate_frame E ev vs w) as [Hgs _].
  cbv zeta in Hrun, Hshape.
  destruct (result_of (should_call_seer_for_grouping E ev vs w)) as [[|]|e].
  - destruct (seer_answer E ev vs 1 _) as [rs|e]; [|left; tauto].
    destruct (list_find _ (all_grouphashes w)) as [[i g]|] eqn:Hfind; [|left; tauto].
    destruct Hrun as (_ & Hafter & _).
    destruct (metadata g) as [gm|] eqn:Hmeta; [|left; exact Hafter].
    right. eexists i, g, gm, _. split; [done|]. split; [done|].
    split; [|exact Hafter]. reflexivity.
  - left. destruct Hshape as (_ & -> & _). exact Hgs.
  - left. destruct Hshape as (_ & -> & _). exact Hgs.
Qed.

(** X9.  [get_seer_similar_issues] touches nothing but the cached
    stacktrace string: the candidates and the limiter are as before, the
    limiter is not asked, and every other key of [event.data] keeps its
    value.  When the string it works with is not empty, the key
    "stacktrace_string" is gone afterwards, whether Seer answers or the
    call raises; when it is empty, [event.data] is left as it was. *)
Theorem client_touches_only_scratch ev vs k w :
  let o := get_seer_similar_issues E ev vs k w in
  all_grouphashes (store_of o) = all_grouphashes w
  ∧ ratelimiter (store_of o) = ratelimiter w
  ∧ limiter_calls (effects_of o) = []
  ∧ (∀ key, key ≠ scratch_key → data (store_of o) !! key = data w !! key)
  ∧ if py_truthy (stacktrace_string_of E ev vs (data w))
    then data (store_of o) !! scratch_key = None
    else data (store_of o) = data w.
Proof.
  cbv zeta.
  destruct (client_extras ev vs k w) as (Hgs & Hrl & Hdata & _ & _ & _ & _ & Hlim).
  repeat split; try assumption.
  - intros key Hkey. rewrite Hdata.
    destruct (py_truthy _); [|reflexivity]. by rewrite lookup_delete_ne.
  - rewrite Hdata. destruct (py_truthy _); [|reflexivity]. apply lookup_delete_eq.
Qed.

(** X10.  Whatever the outcome, the orchestrator leaves every key of
    [event.data] other than "stacktrace_string" with the value it had. *)
Theorem orchestrator_keeps_other_keys ev vs w key :
  key ≠ scratch_key →
  let o := maybe_check_seer_for_matching_grouphash E ev vs w in
  data (store_of o) !! key = data w !! key.
Proof.
  intros Hkey. cbv zeta.
  pose proof (orchestrator_shape ev vs w) as Hshape.
  destruct (gate_extras E ev vs w) as (_ & _ & _ & _ & _ & _ & _ & Hgate).
  cbv zeta in Hshape.
  destruct (result_of (should_call_seer_for_grouping E ev vs w)) as [[|]|e].
  - destruct Hshape as (-> & _).
    destruct (client_extras ev vs 1
                (store_of (should_call_seer_for_grouping E ev vs w)))
      as (_ & _ & -> & _).
    destruct (py_truthy _); rewrite ?lookup_delete_ne by done; by apply Hgate.
  - destruct Hshape as (_ & -> & _). by apply Hgate.
  - destruct Hshape as (_ & -> & _). by apply Hgate.
Qed.

(** X11.  Caching and popping undo each other: when the event's data has
    no "stacktrace_string" key and the gate lets the event through, the
    event's data after the orchestrator is the data before it, whatever
    Seer answers. *)
Theorem orchestrator_restores_data ev vs w :
  data w !! scratch_key = None →
  result_of (should_call_seer_for_grouping E ev vs w) = Ok true →
  let o := maybe_check_seer_for_matching_grouphash E ev vs w in
  data (store_of o) = data w.
Proof.
  intros Hfresh Hpass. cbv zeta.
  pose proof (orchestrator_shape ev vs w) as Hshape.
  cbv zeta in Hshape. rewrite Hpass in Hshape. destruct Hshape as (-> & _).
  destruct (client_extras ev vs 1
              (store_of (should_call_seer_for_grouping E ev vs w)))
    as (_ & _ & -> & _).
  rewrite (gate_pass_truthy E ev vs w Hpass).
  destruct (gate_caches_derived_string ev vs w Hpass) as (s & _ & _ & ->).
  by apply delete_insert_id.
Qed.

Lemma tail_reads (tail : list Effect) :
  (tail = [] ∨ ∃ h, tail = [MetadataUpdate h]) →
  seer_requests tail = [] ∧ ledger_queries tail = [] ∧ captured tail = []
  ∧ calls_made tail = [] ∧ blockers tail = [] ∧ string_computations tail = []
  ∧ limiter_calls tail = [].
Proof. intros [-> | [h ->]]; repeat split. Qed.

(** X12.  Seer is called exactly when the gate lets the event through.
    Then the orchestrator records once that a call was made, records no
    blocker, and sends one request, whose stacktrace is the string derived
    from the variants; otherwise it records no call, sends nothing to Seer,
    queries no ledger entry and updates no metadata. *)
Theorem orchestrator_calls_seer_iff_gate_passes ev vs w :
  let gate := should_call_seer_for_grouping E ev vs w in
  let o := maybe_check_seer_for_matching_grouphash E ev vs w in
  match result_of gate with
  | Ok true =>
      calls_made (effects_of o) = ["none"]
      ∧ blockers (effects_of o) = []
      ∧ ∃ s, get_stacktrace_string_with_metrics E vs (platform ev) INGEST = Some s
             ∧ seer_requests (effects_of o) =
                 [request_data_of E ev 1 (PStr s)
                    (get_path_exception_type E (data (store_of gate)))]
  | _ =>
      calls_made (effects_of o) = []
      ∧ seer_requests (effects_of o) = []
      ∧ ledger_queries (effects_of o) = []
      ∧ metadata_updates (effects_of o) = []
  end.
Proof.
  cbv zeta.
  pose proof (orchestrator_shape ev vs w) as Hshape.
  destruct (gate_extras E ev vs w) as (Hreq & Hq & _ & Hcalls & _ & _ & Hpass & _).
  destruct (gate_frame E ev vs w) as [_ Hmu].
  pose proof (gate_caches_derived_string ev vs w) as Hcache.
  pose proof (gate_pass_truthy E ev vs w) as Htruthy.
  cbv zeta in Hshape, Hcache, Htruthy.
  destruct (result_of (should_call_seer_for_grouping E ev vs w)) as [[|]|e].
  - destruct Hshape as (_ & _ & tail & -> & Htail).
    destruct Hpass as [_ Hb].
    destruct (Hcache eq_refl) as (s & Hs & _ & Hdata).
    destruct (client_extras ev vs 1
                (store_of (should_call_seer_for_grouping E ev vs w)))
      as (_ & _ & _ & _ & _ & Hc & Hcb & _).
    pose proof (get_seer_similar_issues_run E ev vs 1
                  (store_of (should_call_seer_for_grouping E ev vs w))) as Hrun.
    cbv zeta in Hrun. rewrite (Htruthy eq_refl) in Hrun.
    destruct Hrun as (_ & Hcreq & _).
    assert (Ht : seer_requests tail = [] ∧ calls_made tail = [] ∧ blockers tail = []).
    { destruct (result_of (get_seer_similar_issues E ev vs 1 _)).
      - apply tail_reads in Htail. tauto.
      - subst tail. done. }
    destruct Ht as (Ht1 & Ht2 & Ht3).
    rewrite calls_made_app, blockers_app, seer_requests_app, Hcalls, Hb, Hreq.
    cbn [app calls_made blockers seer_requests omap list_omap].
    fold (calls_made (effects_of (get_seer_similar_issues E ev vs 1
            (store_of (should_call_seer_for_grouping E ev vs w))) ++ tail)).
    fold (blockers (effects_of (get_seer_similar_issues E ev vs 1
            (store_of (should_call_seer_for_grouping E ev vs w))) ++ tail)).
    fold (seer_requests (effects_of (get_seer_similar_issues E ev vs 1
            (store_of (should_call_seer_for_grouping E ev vs w))) ++ tail)).
    rewrite calls_made_app, blockers_app, seer_requests_app, Hc, Hcb, Hcreq, Ht1, Ht2, Ht3.
    repeat split. exists s. split; [done|].
    unfold stacktrace_string_of. rewrite Hdata. unfold scratch_key.
    rewrite lookup_insert_eq. reflexivity.
  - destruct Hshape as (_ & _ & ->). done.
  - destruct Hshape as (_ & _ & ->). done.
Qed.

(** X13.  The error-tracking sink is called exactly when the gate has let
    the event through and the Seer call raises.  An exception raised
    inside the gate itself is not caught: it leaves the orchestrator as it
    is, with nothing sent to Seer and nothing reported to the sink. *)
Theorem orchestrator_captures_only_seer_failures ev vs w :
  let gate := should_call_seer_for_grouping E ev vs w in
  let o := maybe_check_seer_for_matching_grouphash E ev vs w in
  match result_of gate with
  | Ok true =>
      captured (effects_of o) =
        match seer_answer E ev vs 1 (store_of gate) with
        | Raise e => [e]
        | Ok _ => []
        end
  | Ok false => captured (effects_of o) = []
  | Raise e =>
      result_of o = Raise e
      ∧ captured (effects_of o) = []
      ∧ seer_requests (effects_of o) = []
      ∧ all_grouphashes (store_of o) = all_grouphashes w
  end.
Proof.
  cbv zeta.
  pose proof (orchestrator_shape ev vs w) as Hshape.
  destruct (gate_extras E ev vs w) as (Hreq & _ & Hcap & _).
  destruct (gate_frame E ev vs w) as [Hgs _].
  pose proof (client_after_gate E ev vs w) as Hclient.
  cbv zeta in Hshape, Hclient.
  destruct (result_of (should_call_seer_for_grouping E ev vs w)) as [[|]|e].
  - destruct Hshape as (_ & _ & tail & -> & Htail).
    specialize (Hclient eq_refl).
    destruct (client_extras ev vs 1
                (store_of (should_call_seer_for_grouping E ev vs w)))
      as (_ & _ & _ & _ & Hc & _).
    rewrite captured_app, Hcap. cbn [app captured omap list_omap].
    fold (captured (effects_of (get_seer_similar_issues E ev vs 1
            (store_of (should_call_seer_for_grouping E ev vs w))) ++ tail)).
    rewrite captured_app, Hc.
    destruct (seer_answer E ev vs 1 _) as [rs|e]; rewrite Hclient in Htail.
    + apply tail_reads in Htail. tauto.
    + subst tail. reflexivity.
  - destruct Hshape as (_ & _ & ->). done.
  - destruct Hshape as (-> & -> & ->). done.
Qed.

(** X16.  What the orchestrator returns as a match is always a row of the
    ledger in the event's own project whose hash is the parent hash of the
    first neighbour Seer returned; it returns a match only after the gate
    has let the event through. *)
Theorem orchestrator_match_is_parent_in_project ev vs w g :
  let gate := should_call_seer_for_grouping E ev vs w in
  result_of (maybe_check_seer_for_matching_grouphash E ev vs w) = Ok (Some g) →
  result_of gate = Ok true
  ∧ g ∈ GroupHash_objects E
  ∧ project_id g = id (project ev)
  ∧ ∃ top rest,
      seer_answer E ev vs 1 (store_of gate) = Ok (top :: rest)
      ∧ hash g = parent_hash top.
Proof.
  cbv zeta. intros Hres.
  pose proof (orchestrator_run E ev vs w) as Hrun. cbv zeta in Hrun.
  destruct (result_of (should_call_seer_for_grouping E ev vs w)) as [[|]|e].
  - split; [reflexivity|].
    destruct (seer_answer E ev vs 1 _) as [rs|e].
    + destruct (list_find _ (all_grouphashes w)) as [[i c]|].
      * destruct Hrun as (Hm & _). rewrite Hm in Hres.
        injection Hres as Hparent.
        destruct rs as [|top rest]; [discriminate|].
        cbn [parent_of] in Hparent.
        apply find_some in Hparent as [Hin Hg].
        apply andb_true_iff in Hg as [Hh Hp].
        apply String.eqb_eq in Hh. apply Z.eqb_eq in Hp.
        split; [by rewrite list_elem_of_In|]. split; [done|]. eauto.
      * destruct Hrun as (Hm & _). congruence.
    + destruct Hrun as (Hm & _). congruence.
  - destruct Hrun as (Hm & _). congruence.
  - congruence.
Qed.

(** X17.  In a run that reaches Seer the stacktrace string is derived
    twice: once by the gate, which caches it, and once more by the client,
    which computes the default of its lookup before looking the cached
    value up.  In any other run it is derived at most once. *)
Theorem orchestrator_derives_string_twice ev vs w :
  let gate := should_call_seer_for_grouping E ev vs w in
  let o := maybe_check_seer_for_matching_grouphash E ev vs w in
  match result_of gate with
  | Ok true => string_computations (effects_of o) = [tt; tt]
  | _ => length (string_computations (effects_of o)) ≤ 1
  end.
Proof.
  cbv zeta.
  pose proof (orchestrator_shape ev vs w) as Hshape.
  destruct (gate_extras E ev vs w) as (_ & _ & _ & _ & Hle & _ & Hpass & _).
  cbv zeta in Hshape.
  destruct (result_of (should_call_seer_for_grouping E ev vs w)) as [[|]|e].
  - destruct Hshape as (_ & _ & tail & -> & Htail).
    destruct Hpass as [Hs _].
    destruct (client_extras ev vs 1
                (store_of (should_call_seer_for_grouping E ev vs w)))
      as (_ & _ & _ & Hc & _).
    assert (Ht : string_computations tail = []).
    { destruct (result_of (get_seer_similar_issues E ev vs 1 _)).
      - apply tail_reads in Htail. tauto.
      - subst tail. done. }
    rewrite string_computations_app, Hs. cbn [app string_computations omap list_omap].
    fold (string_computations (effects_of (get_seer_similar_issues E ev vs 1
            (store_of (should_call_seer_for_grouping E ev vs w))) ++ tail)).
    rewrite string_computations_app, Hc, Ht. reflexivity.
  - destruct Hshape as (_ & _ & ->). done.
  - destruct Hshape as (_ & _ & ->). done.
Qed.

Lemma ratelimiting_calls_bound ev p w :
  length (limiter_calls (effects_of (_ratelimiting_enabled E ev p w))) ≤ 2.
Proof. destruct w as [d gs rl]. run_more; cbn; lia. Qed.

Lemma gate_calls_bound ev vs w :
  length (limiter_calls (effects_of (should_call_seer_for_grouping E ev vs w))) ≤ 2.
Proof.
  pose proof (ratelimiting_calls_bound ev (project ev)) as Hb.
  gate_paths E.
  all: read_traces; rewrite ?app_nil_r; cbn [app length]; try lia.
  all: match goal with
       | Hrun : _ratelimiting_enabled _ _ _ ?st = _ |- _ =>
           specialize (Hb st); rewrite Hrun in Hb; exact Hb
       end.
Qed.

(** X18.  The orchestrator spends rate-limit budget through the gate
    only: the limiter calls of a run are those of its gate, at most two,
    and the limiter is left in the state in which the gate left it. *)
Theorem orchestrator_limiter_only_in_gate ev vs w :
  let gate := should_call_seer_for_grouping E ev vs w in
  let o := maybe_check_seer_for_matching_grouphash E ev vs w in
  limiter_calls (effects_of o) = limiter_calls (effects_of gate)
  ∧ length (limiter_calls (effects_of o)) ≤ 2
  ∧ ratelimiter (store_of o) = ratelimiter (store_of gate).
Proof.
  cbv zeta.
  pose proof (orchestrator_shape ev vs w) as Hshape.
  pose proof (gate_calls_bound ev vs w) as Hbound.
  cbv zeta in Hshape.
  assert (Hgoal :
    limiter_calls (effects_of (maybe_check_seer_for_matching_grouphash E ev vs w)) =
      limiter_calls (effects_of (should_call_seer_for_grouping E ev vs w))
    ∧ ratelimiter (store_of (maybe_check_seer_for_matching_grouphash E ev vs w)) =
      ratelimiter (store_of (should_call_seer_for_grouping E ev vs w))).
  { destruct (result_of (should_call_seer_for_grouping E ev vs w)) as [[|]|e].
    - destruct Hshape as (_ & -> & tail & -> & Htail).
      destruct (client_extras ev vs 1
                  (store_of (should_call_seer_for_grouping E ev vs w)))
        as (_ & -> & _ & _ & _ & _ & _ & Hc).
      assert (Ht : limiter_calls tail = []).
      { destruct (result_of (get_seer_similar_issues E ev vs 1 _)).
        - apply tail_reads in Htail. tauto.
        - subst tail. done. }
      split; [|reflexivity].
      rewrite limiter_calls_app. cbn [app limiter_calls omap list_omap].
      fold (limiter_calls (effects_of (get_seer_similar_issues E ev vs 1
              (store_of (should_call_seer_for_grouping E ev vs w))) ++ tail)).
      rewrite limiter_calls_app, Hc, Ht. by rewrite app_nil_r.
    - destruct Hshape as (_ & -> & ->). done.
    - destruct Hshape as (_ & -> & ->). done. }
  destruct Hgoal as [Hcalls Hrl]. rewrite Hcalls. done.
Qed.

(** X14.  The orchestrator never adds, removes or re-keys a candidate
    and never creates, removes or re-dates a metadata block: after every
    run the candidates have, position by position, the hashes, the project
    ids and the metadata creation times they had before. *)
Theorem orchestrator_keeps_ledger_keys ev vs w :
  let o := maybe_check_seer_for_matching_grouphash E ev vs w in
  hash <$> all_grouphashes (store_of o) = hash <$> all_grouphashes w
  ∧ project_id <$> all_grouphashes (store_of o) = project_id <$> all_grouphashes w
  ∧ (λ g, date_added <$> metadata g) <$> all_grouphashes (store_of o)
    = (λ g, date_added <$> metadata g) <$> all_grouphashes w.
Proof.
  cbv zeta.
  destruct (orchestrator_candidates ev vs w)
    as [-> | (i & g & gm & gm' & Hfind & Hmeta & Hdate & ->)]; [done|].
  apply list_find_Some in Hfind as (Hi & _ & _).
  rewrite !list_fmap_insert. cbn.
  repeat split; apply list_insert_id; rewrite list_lookup_fmap, Hi; cbn;
    rewrite ?Hmeta, ?Hdate; reflexivity.
Qed.


End MoreClient.

(** ** Concrete runs, again *)

(** X3 applied to an event with too many contributing frames. *)
Lemma gate_derives_string_late_witness :
  early_check_fails deps_excess_frames event no_variants (store data_default [])
  ∧ string_computations
      (effects_of (should_call_seer_for_grouping deps_excess_frames event no_variants
                     (store data_default []))) = [].
Proof.
  assert (H : early_check_fails deps_excess_frames event no_variants
                (store data_default []))
    by (do 4 right; left; reflexivity).
  split; [exact H|].
  exact (proj1 (gate_derives_string_late deps_excess_frames event no_variants
                  (store data_default []) H)).
Defined.

(** X4 applied to an event that nothing stops. *)
Lemma gate_lets_clear_event_through_witness :
  all_clear deps event no_variants (store data_default [])
    "ZeroDivisionError: division by zero"
  ∧ result_of (should_call_seer_for_grouping deps event no_variants
                 (store data_default [])) = Ok true.
Proof.
  assert (H : all_clear deps event no_variants (store data_default [])
                "ZeroDivisionError: division by zero").
  { repeat split; try (vm_compute; reflexivity). discriminate. }
  split; [exact H|].
  refine (proj1 (gate_lets_clear_event_through deps event no_variants
                   (store data_default []) _ H _ _ _ _)).
  - discriminate.
  - discriminate.
  - vm_compute. reflexivity.
  - vm_compute. reflexivity.
Defined.

(** X5 applied to options whose per-project window is zero. *)
Lemma ratelimit_zero_window_raises_witness :
  window (per_project_rate_limit (options Edge.deps_zero_window)) = 0%Z
  ∧ result_of (_ratelimiting_enabled Edge.deps_zero_window event backfilled_project
                 (store data_default [])) = Raise ZeroDivisionError.
Proof.
  assert (H : window (per_project_rate_limit (options Edge.deps_zero_window)) = 0%Z)
    by reflexivity.
  split; [exact H|].
  exact (proj1 (ratelimit_zero_window_raises Edge.deps_zero_window event
                  backfilled_project (store data_default []) (or_intror H))).
Defined.


(** X7 applied to the pure default list beside a custom fingerprint
    variant. *)
Lemma fingerprint_check_on_lists_witness :
  default (PList []) (data (store data_default []) !! "fingerprint")
  = PList [PStr "{{ default }}"]
  ∧ ∃ customized,
      result_of (_has_customized_fingerprint event custom_variants
                   (store data_default [])) = Ok customized.
Proof.
  assert (H : default (PList []) (data (store data_default []) !! "fingerprint")
              = PList [PStr "{{ default }}"])
    by (vm_compute; reflexivity).
  split; [exact H|].
  destruct (fingerprint_check_on_lists event custom_variants (store data_default [])
              _ H) as (customized & Hres & _).
  exists customized. exact Hres.
Defined.

(** X8 applied to a payload whose fingerprint is [None]. *)
Lemma fingerprint_not_a_container_raises_witness :
  data (store Edge.data_null_fingerprint []) !! "fingerprint" = Some PNone
  ∧ result_of (_has_customized_fingerprint event no_variants
                 (store Edge.data_null_fingerprint [])) = Raise TypeError.
Proof.
  assert (H : data (store Edge.data_null_fingerprint []) !! "fingerprint" = Some PNone)
    by (vm_compute; reflexivity).
  split; [exact H|].
  exact (proj1 (fingerprint_not_a_container_raises event no_variants
                  (store Edge.data_null_fingerprint []) PNone H I)).
Defined.

(** X10 applied to a payload with an environment tag. *)
Lemma orchestrator_keeps_other_keys_witness :
  "environment" ≠ scratch_key
  ∧ data (store_of (maybe_check_seer_for_matching_grouphash deps event no_variants
                      (store Edge.data_tagged [sent_row]))) !! "environment"
    = data (store Edge.data_tagged [sent_row]) !! "environment".
Proof.
  assert (H : "environment" ≠ scratch_key) by discriminate.
  split; [exact H|].
  exact (orchestrator_keeps_other_keys deps event no_variants
           (store Edge.data_tagged [sent_row]) "environment" H).
Defined.

(** X11 applied to a run that reaches Seer. *)
Lemma orchestrator_restores_data_witness :
  data (store data_default [sent_row]) !! scratch_key = None
  ∧ result_of (should_call_seer_for_grouping deps event no_variants
                 (store data_default [sent_row])) = Ok true
  ∧ data (store_of (maybe_check_seer_for_matching_grouphash deps event no_variants
                      (store data_default [sent_row])))
    = data (store data_default [sent_row]).
Proof.
  assert (Hfresh : data (store data_default [sent_row]) !! scratch_key = None)
    by (vm_compute; reflexivity).
  assert (Hpass : result_of (should_call_seer_for_grouping deps event no_variants
                               (store data_default [sent_row])) = Ok true)
    by (vm_compute; reflexivity).
  split; [exact Hfresh|]. split; [exact Hpass|].
  exact (orchestrator_restores_data deps event no_variants
           (store data_default [sent_row]) Hfresh Hpass).
Defined.


(** X16 applied to a run in which Seer names a parent in the ledger. *)
Lemma orchestrator_match_is_parent_in_project_witness :
  result_of (maybe_check_seer_for_matching_grouphash deps event no_variants
               (store data_default [sent_row])) = Ok (Some parent_row)
  ∧ parent_row ∈ GroupHash_objects deps
  ∧ project_id parent_row = id (project event).
Proof.
  assert (H : result_of (maybe_check_seer_for_matching_grouphash deps event no_variants
                           (store data_default [sent_row])) = Ok (Some parent_row))
    by (vm_compute; reflexivity).
  split; [exact H|].
  destruct (orchestrator_match_is_parent_in_project deps event no_variants
              (store data_default [sent_row]) parent_row H)
    as (_ & Hin & Hp & _).
  split; assumption.
Defined.

Section Labels.

Context {RL : Type} (E : Deps RL).

Ltac labels :=
  intros; match goal with w : Store _ |- _ => destruct w end;
  unfold blocker_of_gate, fixed_blockers, fingerprint_variant_of;
  run_more;
  repeat first [apply List.Forall_nil | apply List.Forall_cons];
  try (left; set_solver); try (right; eauto).

Lemma content_labels ev vs w :
  Forall (blocker_of_gate vs) (blockers (effects_of (_event_content_is_seer_eligible E ev w))).
Proof. labels. Qed.

Lemma backfill_labels p vs w :
  Forall (blocker_of_gate vs)
    (blockers (effects_of (_project_has_similarity_grouping_enabled E p w))).
Proof. labels. Qed.

Lemma fingerprint_labels ev vs (w : Store RL) :
  Forall (blocker_of_gate vs) (blockers (effects_of (_has_customized_fingerprint ev vs w))).
Proof. labels. Qed.

Lemma frames_labels ev vs w :
  Forall (blocker_of_gate vs)
    (blockers (effects_of (_has_too_many_contributing_frames E ev vs w))).
Proof. labels. Qed.

Lemma killswitch_labels ev p vs w :
  Forall (blocker_of_gate vs) (blockers (effects_of (call_killswitch_enabled E ev p w))).
Proof. labels. Qed.

Lemma breaker_labels ev p vs w :
  Forall (blocker_of_gate vs) (blockers (effects_of (_circuit_breaker_broken E ev p w))).
Proof. labels. Qed.

Lemma stacktrace_string_labels ev vs w :
  Forall (blocker_of_gate vs)
    (blockers (effects_of (_has_empty_stacktrace_string E ev vs w))).
Proof. labels. Qed.

Lemma ratelimiting_labels ev p vs w :
  Forall (blocker_of_gate vs) (blockers (effects_of (_ratelimiting_enabled E ev p w))).
Proof. labels. Qed.

(** X20.  Every blocker that the gate records with
    [record_did_call_seer_metric] is one of hybrid-fingerprint,
    excess-frames, circuit-breaker, empty-stacktrace-string,
    global-rate-limit and project-rate-limit, or the type of the
    fingerprint variant found in the variants. *)
Theorem gate_blockers_are_known ev vs w :
  Forall (blocker_of_gate vs)
    (blockers (effects_of (should_call_seer_for_grouping E ev vs w))).
Proof.
  pose proof (content_labels ev vs w) as H1.
  pose proof (backfill_labels (project ev) vs w) as H2.
  pose proof (fingerprint_labels ev vs w) as H3.
  pose proof (frames_labels ev vs w) as H4.
  pose proof (killswitch_labels ev (project ev) vs w) as H5.
  pose proof (breaker_labels ev (project ev) vs w) as H6.
  pose proof (stacktrace_string_labels ev vs w) as H7.
  pose proof (ratelimiting_labels ev (project ev) vs) as H8.
  gate_paths E.
  all: cbn [effects_of snd] in *.
  all: rewrite ?blockers_app.
  all: repeat apply Forall_app_2; try assumption; try apply List.Forall_nil.
  all: match goal with
       | Hrun : _ratelimiting_enabled _ _ _ ?st = _ |- _ =>
           specialize (H8 st); rewrite Hrun in H8; exact H8
       end.
Qed.

(** X19.  The stacktrace-string check stops the event both when no
    string can be derived ([None]) and when the derived string is empty,
    but records the blocker empty-stacktrace-string in the second case
    only; in neither case does it write to the store.  A string that is not
    empty lets the event through and is stored under "stacktrace_string",
    everything else in the store staying as it was. *)
Theorem string_check_tells_none_from_empty ev vs w :
  let o := _has_empty_stacktrace_string E ev vs w in
  match get_stacktrace_string_with_metrics E vs (platform ev) INGEST with
  | None =>
      result_of o = Ok true ∧ blockers (effects_of o) = [] ∧ store_of o = w
  | Some s =>
      if String.eqb s "" then
        result_of o = Ok true
        ∧ blockers (effects_of o) = ["empty-stacktrace-string"]
        ∧ store_of o = w
      else
        result_of o = Ok false
        ∧ blockers (effects_of o) = []
        ∧ store_of o =
            mkStore (<[scratch_key := PStr s]> (data w)) (all_grouphashes w)
              (ratelimiter w)
  end.
Proof.
  destruct w as [d gs rl]. cbv zeta.
  unfold _has_empty_stacktrace_string.
  cbv beta iota zeta delta [bind ret emit get_data set_data check_return
    record_did_call_seer_metric].
  destruct (get_stacktrace_string_with_metrics E vs (platform ev) INGEST) as [s|];
    [|cbn; done].
  cbn [opt_str py_truthy is_str].
  destruct (String.eqb s ""); cbn; done.
Qed.

Lemma list_find_insert_same_key (P : GroupHash → Prop) `{!∀ g, Decision (P g)}
    (l : list GroupHash) i g g' :
  list_find P l = Some (i, g) → P g' →
  list_find P (<[i := g']> l) = Some (i, g').
Proof.
  intros Hfind Hg'.
  apply list_find_Some in Hfind as (Hi & _ & Hbefore).
  apply list_find_Some. split; [|split; [done|]].
  - apply list_lookup_insert_eq. by apply lookup_lt_Some in Hi.
  - intros j y Hj Hlt. rewrite list_lookup_insert_ne in Hj by lia. eauto.
Qed.

(** X21.  Running the orchestrator again for the same event leaves the
    ledger as the first run left it: when both runs pass the gate and Seer
    gives the same answer to both, the candidates after the second run are
    the candidates after the first, so that the provenance written by the
    first run is neither duplicated nor changed. *)
Theorem orchestrator_rerun_keeps_ledger ev vs w rs :
  let gate1 := should_call_seer_for_grouping E ev vs w in
  let o1 := maybe_check_seer_for_matching_grouphash E ev vs w in
  let gate2 := should_call_seer_for_grouping E ev vs (store_of o1) in
  let o2 := maybe_check_seer_for_matching_grouphash E ev vs (store_of o1) in
  result_of gate1 = Ok true →
  seer_answer E ev vs 1 (store_of gate1) = Ok rs →
  result_of gate2 = Ok true →
  seer_answer E ev vs 1 (store_of gate2) = Ok rs →
  all_grouphashes (store_of o2) = all_grouphashes (store_of o1).
Proof.
  cbv zeta. intros Hpass1 Hseer1 Hpass2 Hseer2.
  pose proof (orchestrator_run E ev vs w) as Hrun1.
  pose proof (orchestrator_run E ev vs
                (store_of (maybe_check_seer_for_matching_grouphash E ev vs w)))
    as Hrun2.
  cbv zeta in Hrun1, Hrun2.
  rewrite Hpass1, Hseer1 in Hrun1. rewrite Hpass2, Hseer2 in Hrun2.
  destruct (list_find _ (all_grouphashes w)) as [[i g]|] eqn:Hfind.
  - destruct Hrun1 as (_ & Hafter1 & _).
    destruct (metadata g) as [gm|] eqn:Hmeta.
    + rewrite Hafter1 in Hrun2 |- *.
      erewrite list_find_insert_same_key in Hrun2; [|exact Hfind|].
      2:{ cbn. by apply list_find_Some in Hfind as (_ & ? & _). }
      destruct Hrun2 as (_ & -> & _). cbn.
      by rewrite list_insert_insert_eq.
    + rewrite Hafter1 in Hrun2 |- *. rewrite Hfind, Hmeta in Hrun2.
      tauto.
  - destruct Hrun1 as (_ & _ & Hafter1 & _).
    rewrite Hafter1 in Hrun2 |- *. rewrite Hfind in Hrun2. tauto.
Qed.

End Labels.

(** X21 applied to two runs in a row for one event. *)
Lemma orchestrator_rerun_keeps_ledger_witness :
  let w := store data_default [secondary_row; sent_row] in
  let o1 := maybe_check_seer_for_matching_grouphash deps event no_variants w in
  result_of (should_call_seer_for_grouping deps event no_variants w) = Ok true
  ∧ result_of (should_call_seer_for_grouping deps event no_variants (store_of o1))
    = Ok true
  ∧ all_grouphashes
      (store_of (maybe_check_seer_for_matching_grouphash deps event no_variants
                   (store_of o1)))
    = all_grouphashes (store_of o1).
Proof.
  cbv zeta.
  assert (Hpass1 : result_of (should_call_seer_for_grouping deps event no_variants
                                (store data_default [secondary_row; sent_row]))
                   = Ok true)
    by (vm_compute; reflexivity).
  assert (Hpass2 : result_of
                     (should_call_seer_for_grouping deps event no_variants
                        (store_of (maybe_check_seer_for_matching_grouphash deps event
                                     no_variants
                                     (store data_default [secondary_row; sent_row]))))
                   = Ok true)
    by (vm_compute; reflexivity).
  split; [exact Hpass1|]. split; [exact Hpass2|].
  exact (orchestrator_rerun_keeps_ledger deps event no_variants
           (store data_default [secondary_row; sent_row]) [neighbour]
           Hpass1 eq_refl Hpass2 eq_refl).
Defined.
